(** * go-micro: the echo adapter (src/adapters/echo.go)

    A shallow embedding of the request pipeline of the adapter: the
    tenant and token middlewares of [NewEchoAdapter], the generic
    dispatcher [handleRequest], the route closures registered by
    [echoRouterAdapter.request] and [echoGroupRoute.request], the input
    binder [Bind] and the error mapper [mapHttpResponse].

    Go code that mutates the echo context, writes a response, logs or
    panics is embedded in a state-and-panic monad [M] over the record
    [Context], which stands for the [echo.Context] of one exchange.

    Packages that are not part of the sources at hand (micro, errors,
    schema, and the libraries echo, echo-jwt, jwt, validator, reflect)
    appear as far as the adapter uses them: their types by the fields
    the adapter reads or writes, their functions as parameters
    ([Collaborators]) or by their documented behaviour.  A route is
    the function [request] registers for its handler, behind the
    middlewares [createMiddlewares] builds from its filters; the verbs
    and paths under which echo finds it are not part of the
    embedding. *)

From stdpp Require Import base option list strings gmap fin_maps.
From Stdlib Require Import ZArith.

Local Open Scope Z_scope.
Local Open Scope string_scope.

(** ** Go values *)

(** A value held in an [interface{}]: the payloads handlers return, the
    values of token claims, the bodies handed to [c.JSON], panic values.
    The three response shapes the adapter builds are constructors of
    their own; [Err] is a non-nil value of the [error] interface. *)
#[warnings="-register-all"]
Inductive any : Type :=
| Nil
| Str (s : string)
| Num (z : Z)
| Bool (b : bool)
| Slice (l : list any)
| StrMap (m : gmap string string)
| Object (type_name : string) (fields : list (string * any))
| micro_ErrorResponse (Kind Error : string) (Details : any)
| schema_ErrorResponse (Kind Message : string) (Errors : any)
| echo_Map_message (m : string)
| Err (e : error)

(** Non-nil values of the [error] interface.  The six taxonomy errors of
    package [errors] are pointers to structs with the fields [Kind],
    [Message] and [Details]; [HTTPError] is [*echo.HTTPError];
    [ErrorString] is what [fmt.Errorf] returns; [RuntimeError] stands
    for the run-time panics of Go (failed type assertion, nil
    dereference, [reflect.ValueError]); [CustomError] is any other
    implementation of the interface.  The pointers are not nil. *)
with error : Type :=
| FunctionalError (Kind Message : string) (Details : any)
| TechnicalError (Kind Message : string) (Details : any)
| ForbiddenError (Kind Message : string) (Details : any)
| UnauthorizedError (Kind Message : string) (Details : any)
| ResourceNotFoundError (Kind Message : string) (Details : any)
| ConflictError (Kind Message : string) (Details : any)
| HTTPError (Code : Z) (Message : any)
| ErrorString (s : string)
| RuntimeError (s : string)
| CustomError (type_name : string) (s : string).

(** [net/http] status codes used by the adapter. *)
Definition StatusOK : Z := 200.
Definition StatusBadRequest : Z := 400.
Definition StatusUnauthorized : Z := 401.
Definition StatusForbidden : Z := 403.
Definition StatusNotFound : Z := 404.
Definition StatusConflict : Z := 409.
Definition StatusInternalServerError : Z := 500.

(** ** Authentication and request context (package micro) *)

(** [micro.Authentication], with the fields the adapter assigns.  A nil
    slice is the empty list; a nil [Claims] map is [None]. *)
Record Authentication : Type := mkAuthentication {
  Authenticated : bool;
  TenantId : string;
  UserId : string;
  Roles : list string;
  Permissions : list string;
  Name : string;
  Email : string;
  PhonerNumber : string;
  Claims : option (gmap string any);
  Token : option string   (* [&micro.AuthToken{Issuer: ...}] *)
}.

(** [jwt.Claims] of a verified token: the map claims echo-jwt produces by
    default, or any other implementation, of which only the subject and
    the issuer can be read. *)
Inductive claims : Type :=
| MapClaims (m : gmap string any)
| OtherClaims (type_name : string) (subject issuer : string).

(** [*jwt.Token]. *)
Record jwt_Token : Type := mkToken { token_Claims : claims }.

(** What [c.Set] stores under a key of the echo context. *)
Inductive stored : Type :=
| AuthValue (a : Authentication)
| TokenValue (t : jwt_Token)
| OtherValue (v : any).

(** ** The exchange *)

(** [*http.Request]: the headers (a name maps to its values, in order),
    the request URI and the body. *)
Record Request : Type := mkRequest {
  Header : gmap string (list string);
  RequestURI : string;
  RequestBody : string
}.

(** [http.Header.Get]: the first value of the header, or the empty
    string. *)
Definition Header_Get (h : gmap string (list string)) (key : string) : string :=
  match h !! key with
  | Some (v :: _) => v
  | _ => ""
  end.

Record Response : Type := mkResponse { Status : Z; Body : any }.

(** Modelled from the spec: the Request Context [micro.Ctx] (package
    micro, not under src/) wraps an Authentication Context; the adapter
    reads its field [TenantId]. *)
Record Ctx : Type := mkCtx {
  ctx_TenantId : string;
  ctx_Auth : option Authentication
}.

(** What one exchange leaves behind besides the response: log lines, the
    construction of the request context, the transaction boundary and
    the invocation of the handler. *)
Inductive event : Type :=
| LogError (subject : any)
| LogDebug (msg : string)
| CtxCreated (ctx : Ctx)
| TxBegin
| TxCommit
| TxRollback
| Invoked (ctx : Ctx) (input : option any).

(** [echo.Context]: the request, the key/value store of [c.Get] and
    [c.Set], the responses written with [c.JSON] (oldest first) and the
    journal of events. *)
Record Context : Type := mkContext {
  request : Request;
  store : gmap string stored;
  responses : list Response;
  journal : list event
}.

(** ** The monad of the adapter's code *)

Inductive outcome (A : Type) : Type :=
| Returns (a : A)
| Panics (v : any).
Arguments Returns {A} a.
Arguments Panics {A} v.

Definition M (A : Type) : Type := Context → outcome A * Context.

#[global] Instance M_ret : MRet M := λ A a c, (Returns a, c).
#[global] Instance M_bind : MBind M := λ A B f m c,
  match m c with
  | (Returns a, c') => f a c'
  | (Panics v, c') => (Panics v, c')
  end.

Definition panic {A} (v : any) : M A := λ c, (Panics v, c).

(** [defer func() { if v := recover(); v != nil { ... } }()]: run [body];
    when it panics, run the handler on the panic value. *)
Definition recovering {A} (body : M A) (handler : any → M A) : M A := λ c,
  match body c with
  | (Returns a, c') => (Returns a, c')
  | (Panics v, c') => handler v c'
  end.

Definition emit (e : event) : M unit := λ c,
  (Returns tt, mkContext (request c) (store c) (responses c) (journal c ++ [e])).

Definition c_Request : M Request := λ c, (Returns (request c), c).

Definition c_Get (key : string) : M (option stored) := λ c,
  (Returns (store c !! key), c).

Definition c_Set (key : string) (v : stored) : M unit := λ c,
  (Returns tt, mkContext (request c) (<[key := v]> (store c)) (responses c) (journal c)).

(** [c.JSON(code, v)]: write a response with the status [code] and the
    JSON encoding of [v].  Every value of [any] has an encoding, so the
    call returns a nil error. *)
Definition c_JSON (code : Z) (v : any) : M (option error) := λ c,
  (Returns None,
   mkContext (request c) (store c) (responses c ++ [mkResponse code v]) (journal c)).

Definition log_Error (v : any) : M unit := emit (LogError v).
Definition log_Errorf (v : any) : M unit := emit (LogError v).
Definition log_Debugf (msg : string) : M unit := emit (LogDebug msg).

(** [value.(string)], [value.(error)]: a failed type assertion is a
    run-time panic whose value implements [error]. *)
Definition assertion_failed : any :=
  Err (RuntimeError "interface conversion").

Definition assert_string (v : any) : M string :=
  match v with
  | Str s => mret s
  | _ => panic assertion_failed
  end.

Definition assert_error (v : any) : M error :=
  match v with
  | Err e => mret e
  | _ => panic assertion_failed
  end.

(** ** Package strings *)

(** [strings.HasPrefix(s, prefix)]. *)
Fixpoint strings_HasPrefix (s prefix : string) : bool :=
  match prefix, s with
  | EmptyString, _ => true
  | String a prefix', String b s' => Ascii.eqb a b && strings_HasPrefix s' prefix'
  | String _ _, EmptyString => false
  end.

(** The scan of [strings.Split]: [cur] is the piece being read and
    [skip] the number of characters of a separator still to pass. *)
Fixpoint split_from (sep : string) (skip : nat) (cur s : string) : list string :=
  match s with
  | EmptyString => [cur]
  | String ch rest =>
      match skip with
      | S k => split_from sep k cur rest
      | O =>
          if strings_HasPrefix s sep
          then cur :: split_from sep (Nat.pred (String.length sep)) EmptyString rest
          else split_from sep O (cur +:+ String ch EmptyString) rest
      end
  end.

(** [strings.Split(s, sep)] for a separator that is not empty (the
    adapter only splits at a comma): the pieces of [s] between the
    occurrences of [sep], in order; a string without [sep] is its only
    piece. *)
Definition strings_Split (s sep : string) : list string :=
  split_from sep O EmptyString s.

(** ** Collaborators outside the adapter *)

(** [reflect.Type] of a parameter of a handler. *)
Inductive rtype : Type :=
| micro_Ctx_type
| named_type (name : string).

#[global] Instance rtype_eq_dec : EqDecision rtype.
Proof. solve_decision. Defined.

(** The result of [binder.Bind] and [binder.BindHeaders]: the populated
    value, or an error and its text. *)
Inductive binding : Type :=
| Bound (v : any)
| BindError (err : error).

(** [validator.FieldError]. *)
Record FieldError : Type := mkFieldError { Field : string; Tag : string }.

(** The result of [validate.Struct]: nil, [validator.ValidationErrors],
    or the [*validator.InvalidValidationError] returned for a value that
    is not a struct. *)
Inductive validation : Type :=
| Valid
| ValidationErrors (errs : list FieldError)
| InvalidValidationError.

(** The constants of package micro and the libraries the adapter calls,
    none of which is under src/: they are parameters of the model. *)
Record Collaborators : Type := mkCollaborators {
  (** [micro.DefaultTenantId] and [micro.AuthKey] *)
  DefaultTenantId : string;
  AuthKey : string;
  (** [err.Error()] *)
  error_Error : error → string;
  (** [fmt.Sprint] of a panic value *)
  fmt_Sprint : any → string;
  (** [reflect.New(t).Elem()]: the zero value of a type *)
  reflect_Zero : rtype → any;
  (** [(&echo.DefaultBinder{}).Bind] and [.BindHeaders] on the request *)
  binder_Bind : Request → any → binding;
  binder_BindHeaders : Request → any → binding;
  (** [validate.Struct] *)
  validate_Struct : any → validation;
  (** token verification of echo-jwt with the signing key *)
  jwt_Parse : string → Request → error + jwt_Token
}.

(** ** The error mapper *)

Definition mapHttpResponse (err : error) : M (option error) :=
  log_Errorf (Err err);;
  match err with
  | FunctionalError k m d => c_JSON StatusBadRequest (micro_ErrorResponse k m d)
  | TechnicalError k m d => c_JSON StatusInternalServerError (micro_ErrorResponse k m d)
  | ForbiddenError k m d => c_JSON StatusForbidden (micro_ErrorResponse k m d)
  | UnauthorizedError k m d => c_JSON StatusUnauthorized (micro_ErrorResponse k m d)
  | ResourceNotFoundError k m d => c_JSON StatusNotFound (micro_ErrorResponse k m d)
  | ConflictError k m d => c_JSON StatusConflict (micro_ErrorResponse k m d)
  | HTTPError code message => c_JSON code message
  | _ => mret (Some err)
  end.

(** ** Input binding *)

(** [echo.NewHTTPError(code, message)]. *)
Definition echo_NewHTTPError (code : Z) (message : any) : error :=
  HTTPError code message.

(** The loop of [Bind] over the validation errors:
    [errs[e.Field()] = e.Tag()]. *)
Definition fieldErrors (validationErrors : list FieldError) : gmap string string :=
  foldl (λ errs e, <[Field e := Tag e]> errs) ∅ validationErrors.

Section Adapter.
Context (env : Collaborators).

(** [Bind(c, input)]: [input] points to the value to populate; the
    result is the populated value and the error returned. *)
Definition Bind (input : any) : M (any * option error) :=
  req ← c_Request;
  match binder_Bind env req input with
  | BindError err =>
      mret (input, Some (echo_NewHTTPError StatusBadRequest
        (schema_ErrorResponse "input.bindind" "invalid_request_payload"
           (Str (error_Error env err)))))
  | Bound input1 =>
      match binder_BindHeaders env req input1 with
      | BindError err =>
          mret (input1, Some (echo_NewHTTPError StatusBadRequest
            (schema_ErrorResponse "input.bindind" "invalid_request_payload"
               (Str (error_Error env err)))))
      | Bound input2 =>
          match validate_Struct env input2 with
          | Valid => mret (input2, None)
          | ValidationErrors validationErrors =>
              mret (input2, Some (echo_NewHTTPError StatusBadRequest
                (schema_ErrorResponse "validation" "validation.failed"
                   (StrMap (fieldErrors validationErrors)))))
          | InvalidValidationError => panic assertion_failed
          end
      end
  end.

(** ** The transport (package echo) *)

(** [Echo.DefaultHTTPErrorHandler], the error handler of an echo
    instance that sets none (and leaves [Debug] off): nothing when a
    response is already committed; the code and message of an
    [*echo.HTTPError], a text message wrapped in a JSON object; status
    500 with the text of that status for any other error. *)
Definition echo_DefaultHTTPErrorHandler (err : error) : M unit :=
  λ c,
    match responses c with
    | _ :: _ => (Returns tt, c)
    | [] =>
        (match err with
         | HTTPError code (Str m) => c_JSON code (echo_Map_message m)
         | HTTPError code (Err m) => c_JSON code (echo_Map_message (error_Error env m))
         | HTTPError code message => c_JSON code message
         | _ => c_JSON StatusInternalServerError (echo_Map_message "Internal Server Error")
         end;; mret tt) c
    end.

(** [middleware.Recover()]: a panic below it becomes an error (the panic
    value itself when it is one) that is handed to the error handler. *)
Definition echo_Recover (next : M (option error)) : M (option error) :=
  recovering next (λ r,
    let err := match r with
               | Err e => e
               | _ => ErrorString (fmt_Sprint env r)
               end in
    echo_DefaultHTTPErrorHandler err;;
    mret None).

(** [Echo.ServeHTTP] on the chain of middlewares and the route:
    an error the chain returns goes to the error handler. *)
Definition echo_ServeHTTP (h : M (option error)) : M unit :=
  err ← h;
  match err with
  | Some e => echo_DefaultHTTPErrorHandler e
  | None => mret tt
  end.

(** The middleware of echo-jwt for a configuration with a skipper, an
    error handler and a success handler: a verified token is stored
    under the context key before the success handler runs. *)
Definition echojwt_WithConfig (SigningKey ContextKey : string)
    (Skipper : M bool) (ErrorHandler : error → M (option error))
    (SuccessHandler : M unit) (next : M (option error)) : M (option error) :=
  skip ← Skipper;
  if (skip : bool) then next
  else
    req ← c_Request;
    match jwt_Parse env SigningKey req with
    | inr token =>
        c_Set ContextKey (TokenValue token);;
        SuccessHandler;;
        next
    | inl err => ErrorHandler err
    end.

(** ** NewEchoAdapter *)

(** [micro.RouterConfig]: the fields that reach the authentication
    context.  [TokenProvider] holds the signing key of the provider. *)
Record RouterConfig : Type := mkRouterConfig {
  MultiTenant : bool;
  TokenProvider : option string
}.

Definition withRoles (a : Authentication) (v : list string) : Authentication :=
  mkAuthentication (Authenticated a) (TenantId a) (UserId a) v (Permissions a)
    (Name a) (Email a) (PhonerNumber a) (Claims a) (Token a).

Definition withPermissions (a : Authentication) (v : list string) : Authentication :=
  mkAuthentication (Authenticated a) (TenantId a) (UserId a) (Roles a) v
    (Name a) (Email a) (PhonerNumber a) (Claims a) (Token a).

Definition withName (a : Authentication) (v : string) : Authentication :=
  mkAuthentication (Authenticated a) (TenantId a) (UserId a) (Roles a) (Permissions a)
    v (Email a) (PhonerNumber a) (Claims a) (Token a).

Definition withEmail (a : Authentication) (v : string) : Authentication :=
  mkAuthentication (Authenticated a) (TenantId a) (UserId a) (Roles a) (Permissions a)
    (Name a) v (PhonerNumber a) (Claims a) (Token a).

Definition withPhonerNumber (a : Authentication) (v : string) : Authentication :=
  mkAuthentication (Authenticated a) (TenantId a) (UserId a) (Roles a) (Permissions a)
    (Name a) (Email a) v (Claims a) (Token a).

Definition withClaims (a : Authentication) (v : gmap string any) : Authentication :=
  mkAuthentication (Authenticated a) (TenantId a) (UserId a) (Roles a) (Permissions a)
    (Name a) (Email a) (PhonerNumber a) (Some v) (Token a).

(** The first middleware: the tenant of the request header
    [X-TenantId], or the default tenant, in an unauthenticated
    [micro.Authentication] stored under [micro.AuthKey]. *)
Definition tenantMiddleware (next : M (option error)) : M (option error) :=
  req ← c_Request;
  let tenantId := Header_Get (Header req) "X-TenantId" in
  let tenantId := if decide (tenantId = "") then DefaultTenantId env else tenantId in
  let auth := mkAuthentication false tenantId "" [] [] "" "" "" None None in
  c_Set (AuthKey env) (AuthValue auth);;
  next.

(** [Skipper] of the token middleware. *)
Definition Skipper : M bool :=
  req ← c_Request;
  let authz := Header_Get (Header req) "Authorization" in
  if bool_decide (authz = "") || negb (strings_HasPrefix authz "Bearer ")
  then mret true
  else mret false.

(** [ErrorHandler] of the token middleware. *)
Definition ErrorHandler (err : error) : M (option error) :=
  c_JSON StatusUnauthorized (Str (error_Error env err)).

(** [claims0.GetSubject()] and [claims0.GetIssuer()] with the error
    dropped: for map claims the string under the key, and the empty
    string when the key is absent or holds another type. *)
Definition parseString (m : gmap string any) (key : string) : string :=
  match m !! key with
  | Some (Str s) => s
  | _ => ""
  end.

Definition GetSubject (claims0 : claims) : string :=
  match claims0 with
  | MapClaims m => parseString m "sub"
  | OtherClaims _ subject _ => subject
  end.

Definition GetIssuer (claims0 : claims) : string :=
  match claims0 with
  | MapClaims m => parseString m "iss"
  | OtherClaims _ _ issuer => issuer
  end.

(** [if value, ok := claims[key]; ok { auth.F = g(value.(string)) }]. *)
Definition claim (claims : gmap string any) (key : string)
    (assign : Authentication → string → Authentication) (auth : Authentication)
  : M Authentication :=
  match claims !! key with
  | Some value => s ← assert_string value; mret (assign auth s)
  | None => mret auth
  end.

(** [SuccessHandler] of the token middleware. *)
Definition SuccessHandler (config : RouterConfig) : M unit :=
  user ← c_Get (AuthKey env);
  match user with
  | None => mret tt
  | Some (TokenValue token) =>
      let claims0 := token_Claims token in
      let sub := GetSubject claims0 in
      let issuer := GetIssuer claims0 in
      let tenantId :=
        if MultiTenant config && negb (bool_decide (issuer = ""))
        then issuer else DefaultTenantId env in
      let auth := mkAuthentication true tenantId sub [] [] "" "" "" None (Some issuer) in
      auth ← match claims0 with
             | MapClaims claims =>
                 auth ← claim claims "roles" (λ a s, withRoles a (strings_Split s ",")) auth;
                 auth ← claim claims "role" (λ a s, withRoles a (strings_Split s ",")) auth;
                 auth ← claim claims "permissions"
                          (λ a s, withPermissions a (strings_Split s ",")) auth;
                 auth ← claim claims "name" withName auth;
                 auth ← claim claims "email" withEmail auth;
                 auth ← match claims !! "phone" with
                        | Some value => s ← assert_string value; mret (withPhonerNumber auth s)
                        | None => claim claims "phone_number" withPhonerNumber auth
                        end;
                 mret (withClaims auth (map_fold (λ key value m, <[key := value]> m) ∅ claims))
             | OtherClaims _ _ _ => mret auth
             end;
      c_Set (AuthKey env) (AuthValue auth)
  | Some _ => panic assertion_failed
  end.

(** The chain of [NewEchoAdapter] in front of a route, and the service
    of one exchange by it.  The middlewares that leave the context store
    and the outcome of the route alone (gzip, request id, CORS, logger,
    sentry, body limit) are left out. *)
Definition middlewares (config : RouterConfig) (route : M (option error)) : M (option error) :=
  tenantMiddleware
    (echo_Recover
       match TokenProvider config with
       | Some SigningKey =>
           echojwt_WithConfig SigningKey (AuthKey env) Skipper ErrorHandler
             (SuccessHandler config) route
       | None => route
       end).

Definition NewEchoAdapter (config : RouterConfig) (route : M (option error)) : M unit :=
  echo_ServeHTTP (middlewares config route).

(** ** The request context *)

(** Modelled from the spec: [micro.NewCtx] (package micro, not under
    src/) builds the Request Context of a default anonymous caller of
    the given tenant. *)
Definition micro_NewCtx (tenantId : string) : Ctx := mkCtx tenantId None.

(** Modelled from the spec: [micro.NewAuthCtx] (package micro, not under
    src/) wraps the Authentication Context of the request, whose tenant
    is the tenant of the Request Context. *)
Definition micro_NewAuthCtx (auth : Authentication) : Ctx :=
  mkCtx (TenantId auth) (Some auth).

(** Modelled from the spec: the transactional scope [micro.Ctx.Tx]
    (package micro, not under src/) executes a unit of work, a function
    of the Request Context returning an error, with commit on success
    and rollback on error, and cleans up on any exit path; the error of
    the unit of work is the error of the scope. *)
Definition Tx (ctx : Ctx) (work : Ctx → M (option error)) : M (option error) :=
  emit TxBegin;;
  ((λ c,
      match work ctx c with
      | (Returns None, c') => (emit TxCommit;; mret None) c'
      | (Returns (Some e), c') => (emit TxRollback;; mret (Some e)) c'
      | (Panics v, c') => (emit TxRollback;; panic v) c'
      end) : M (option error)).

Definition createRouteContext : M Ctx :=
  value ← c_Get (AuthKey env);
  ctx ← match value with
        | None => mret (micro_NewCtx (DefaultTenantId env))
        | Some (AuthValue auth) => mret (micro_NewAuthCtx auth)
        | Some _ => panic assertion_failed
        end;
  emit (CtxCreated ctx);;
  mret ctx.

(** ** The generic handler *)

(** A [reflect.Value] returned by [handlerValue.Call]: nil of a kind
    that has a nil (interface, pointer, map, slice, func, chan), a value
    of such a kind that is not nil, or a value of another kind. *)
Inductive rvalue : Type :=
| NilValue
| NonNil (v : any)
| NotNilable (v : any).

(** [v.Interface()]. *)
Definition Interface (v : rvalue) : any :=
  match v with
  | NilValue => Nil
  | NonNil x => x
  | NotNilable x => x
  end.

(** [v.IsNil()] panics with a [*reflect.ValueError] on a kind without
    nil. *)
Definition IsNil (v : rvalue) : M bool :=
  match v with
  | NilValue => mret true
  | NonNil _ => mret false
  | NotNilable _ => panic (Err (RuntimeError "reflect: call of reflect.Value.IsNil"))
  end.

(** The handler value handed to a route: the nil interface, a value
    that is not a function, or a function with the types of its
    parameters; calling it on the request context (and the input, when
    it declares one) returns its results or panics. *)
Inductive Handler : Type :=
| NilHandler
| NonFunc (v : any)
| Func (In : list rtype) (Call : Ctx → option any → outcome (list rvalue)).

Definition fmt_Errorf (msg : string) : error := ErrorString msg.

(** [handlerType.In(i)] beyond the parameters of the function. *)
Definition index_out_of_range : any :=
  Err (RuntimeError "reflect: Func index out of bounds").

(** A method call on the nil [reflect.Type] of the nil interface. *)
Definition nil_dereference : any :=
  Err (RuntimeError "invalid memory address or nil pointer dereference").

(** The end of the unit of work of [handleRequest], after the results of
    the handler are read: [err] is the named result of [handleRequest]
    as the closure sees it. *)
Definition respond (err : option error) (result : any) : M (option error) :=
  match err with
  | Some e => log_Errorf (Err e);; mapHttpResponse e
  | None => c_JSON StatusOK result
  end.

(** The closure [handleRequest] hands to [ctx.Tx], from
    [handlerValue.Call(args)] on: the results of the handler are read by
    their number. *)
Definition invoke (Call : Ctx → option any → outcome (list rvalue))
    (err : option error) (tx : Ctx) (input : option any) : M (option error) :=
  emit (Invoked tx input);;
  res ← (λ c, (Call tx input, c));
  match res with
  | [r0] => respond err (Interface r0)
  | [r0; r1] =>
      isNil ← IsNil r1;
      if (isNil : bool) then respond err (Interface r0)
      else e ← assert_error (Interface r1); mret (Some e)
  | _ => mret (Some (fmt_Errorf "invalid handler return type"))
  end.

(** The closure [handleRequest] hands to [ctx.Tx]. *)
Definition unitOfWork (In : list rtype) (Call : Ctx → option any → outcome (list rvalue))
    (tx : Ctx) : M (option error) :=
  let numIn := length In in
  if decide (numIn = 2%nat) then
    match In !! 1%nat with
    | Some inputType =>
        let inputValue := reflect_Zero env inputType in
        '(inputValue, err) ← Bind inputValue;
        match err with
        | Some e => log_Errorf (Err e);; mret (Some e)
        | None => invoke Call err tx (Some inputValue)
        end
    | None => panic index_out_of_range
    end
  else invoke Call None tx None.

Definition handleRequest (handler : Handler) : M (option error) :=
  match handler with
  | NilHandler => panic nil_dereference
  | NonFunc _ => mret (Some (fmt_Errorf "controller method is not a function"))
  | Func In Call =>
      let numIn := length In in
      if decide (numIn = 0%nat) then
        mret (Some (fmt_Errorf
          "controller method must have at least one argument (micro.Ctx)"))
      else if decide (2 < numIn)%nat then
        mret (Some (fmt_Errorf
          "controller method must have at most two arguments (micro.Ctx, input binding)"))
      else
        match In !! 0%nat with
        | None => panic index_out_of_range
        | Some firstArgType =>
            if decide (firstArgType ≠ micro_Ctx_type) then
              mret (Some (fmt_Errorf
                "handler must be a function with the first argument of type micro.Ctx"))
            else
              ctx ← createRouteContext;
              let tenantId := ctx_TenantId ctx in
              (if decide (tenantId = "") then mret tt
               else log_Debugf ("current tenant_id is " +:+ tenantId));;
              Tx ctx (unitOfWork In Call)
        end
  end.

(** ** The routes *)

(** The function [echoRouterAdapter.request] registers for a handler:
    [handleRequest] under a deferred [recover] that asserts the panic
    value to be an error and maps it. *)
Definition echoRouterAdapter_request (handler : Handler) : M (option error) :=
  recovering (handleRequest handler)
    (λ err0, err ← assert_error err0; mapHttpResponse err).

(** The function [echoGroupRoute.request] registers: the same, with the
    panic value logged first. *)
Definition echoGroupRoute_request (handler : Handler) : M (option error) :=
  recovering (handleRequest handler)
    (λ err0, log_Error err0;; err ← assert_error err0; mapHttpResponse err).

End Adapter.

(** ** Vocabulary of the statements *)

(** The six kinds of the error taxonomy in the order the specification
    lists them, the error value of a kind, and the status the
    specification documents for the kind. *)
Inductive taxonomy : Type :=
| Functional | Technical | Forbidden | Unauthorized | ResourceNotFound | Conflict.

Definition taxonomyError (t : taxonomy) (kind message : string) (details : any) : error :=
  match t with
  | Functional => FunctionalError kind message details
  | Technical => TechnicalError kind message details
  | Forbidden => ForbiddenError kind message details
  | Unauthorized => UnauthorizedError kind message details
  | ResourceNotFound => ResourceNotFoundError kind message details
  | Conflict => ConflictError kind message details
  end.

Definition documentedStatus (t : taxonomy) : Z :=
  match t with
  | Functional => 400
  | Technical => 500
  | Forbidden => 403
  | Unauthorized => 401
  | ResourceNotFound => 404
  | Conflict => 409
  end.

Definition isTaxonomyError (err : error) : bool :=
  match err with
  | FunctionalError _ _ _ | TechnicalError _ _ _ | ForbiddenError _ _ _
  | UnauthorizedError _ _ _ | ResourceNotFoundError _ _ _ | ConflictError _ _ _ => true
  | _ => false
  end.

Definition isHTTPError (err : error) : bool :=
  match err with
  | HTTPError _ _ => true
  | _ => false
  end.

(** Whether a panic value implements [error]. *)
Definition isError (v : any) : bool :=
  match v with
  | Err _ => true
  | _ => false
  end.

(** The context [c] after the events [evs] and the responses [rs]. *)
Definition after (c : Context) (evs : list event) (rs : list Response) : Context :=
  mkContext (request c) (store c) (responses c ++ rs) (journal c ++ evs).

(** The context [c] with [v] stored under [key]. *)
Definition storing (c : Context) (key : string) (v : stored) : Context :=
  mkContext (request c) (<[key := v]> (store c)) (responses c) (journal c).

Definition isLog (e : event) : bool :=
  match e with
  | LogError _ | LogDebug _ => true
  | _ => false
  end.

(** A handler of malformed shape: not callable, without parameters, with
    more than two, or with a first parameter that is not [micro.Ctx]. *)
Definition malformed (handler : Handler) : bool :=
  match handler with
  | NilHandler | NonFunc _ => true
  | Func In _ =>
      match In with
      | [] => true
      | t :: rest => (2 <? length In)%nat || negb (bool_decide (t = micro_Ctx_type))
      end
  end.

(** The request context [createRouteContext] builds from a store, when
    the value under [micro.AuthKey] is absent or an authentication. *)
Definition routeContext (env : Collaborators) (c : Context) : option Ctx :=
  match store c !! AuthKey env with
  | None => Some (micro_NewCtx (DefaultTenantId env))
  | Some (AuthValue auth) => Some (micro_NewAuthCtx auth)
  | Some _ => None
  end.

(** The input a handler with the parameters [In] is called with when
    binding and validation succeed: none for one parameter, the
    populated and validated value for two. *)
Definition boundInput (env : Collaborators) (In : list rtype) (req : Request)
  : option (option any) :=
  match In with
  | [t] => if decide (t = micro_Ctx_type) then Some None else None
  | [t; inputType] =>
      if decide (t = micro_Ctx_type) then
        match binder_Bind env req (reflect_Zero env inputType) with
        | Bound v1 =>
            match binder_BindHeaders env req v1 with
            | Bound v2 =>
                match validate_Struct env v2 with
                | Valid => Some (Some v2)
                | _ => None
                end
            | BindError _ => None
            end
        | BindError _ => None
        end
      else None
  | _ => None
  end.

(** The events of a dispatch up to the invocation of the handler. *)
Definition entering (ctx : Ctx) : list event :=
  CtxCreated ctx ::
  (if decide (ctx_TenantId ctx = "") then []
   else [LogDebug ("current tenant_id is " +:+ ctx_TenantId ctx)]) ++
  [TxBegin].

(** The events of a dispatch that invoked the handler and ended the
    transaction with [last]. *)
Definition dispatched (ctx : Ctx) (input : option any) (last : event) : list event :=
  entering ctx ++ [Invoked ctx input; last].

(** Claims a verified token may carry besides the roles: each one is a
    string when it is present ([phone_number] is read only when [phone]
    is absent). *)
Definition stringOrAbsent (m : gmap string any) (key : string) : bool :=
  match m !! key with
  | None | Some (Str _) => true
  | Some _ => false
  end.

Definition optionalClaimsAreStrings (m : gmap string any) : bool :=
  stringOrAbsent m "permissions" && stringOrAbsent m "name" &&
  stringOrAbsent m "email" &&
  match m !! "phone" with
  | Some (Str _) => true
  | Some _ => false
  | None => stringOrAbsent m "phone_number"
  end.

(** ** Sample collaborators, exchanges and handlers *)

Definition sampleError_Error (e : error) : string :=
  match e with
  | FunctionalError _ m _ | TechnicalError _ m _ | ForbiddenError _ m _
  | UnauthorizedError _ m _ | ResourceNotFoundError _ m _ | ConflictError _ m _ => m
  | HTTPError _ _ => "http error"
  | ErrorString s | RuntimeError s | CustomError _ s => s
  end.

(** A binder that reads the field [name] from the request body, a
    validator that requires it, and a verifier that accepts the token
    [Bearer t1] of user [u1] at issuer [acme.org]. *)
Definition sampleClaims : gmap string any :=
  <["sub" := Str "u1"]> (<["iss" := Str "acme.org"]> (<["roles" := Str "admin,editor"]> ∅)).

Definition sampleEnv : Collaborators := {|
  DefaultTenantId := "default";
  AuthKey := "auth";
  error_Error := sampleError_Error;
  fmt_Sprint := λ _, "panic";
  reflect_Zero := λ _, Object "OrderInput" [("name", Str "")];
  binder_Bind := λ req _, Bound (Object "OrderInput" [("name", Str (RequestBody req))]);
  binder_BindHeaders := λ _ v, Bound v;
  validate_Struct := λ v,
    match v with
    | Object _ [(_, Str "")] => ValidationErrors [mkFieldError "name" "required"]
    | Object _ _ => Valid
    | _ => InvalidValidationError
    end;
  jwt_Parse := λ _ req,
    if bool_decide (Header_Get (Header req) "Authorization" = "Bearer t1")
    then inr (mkToken (MapClaims sampleClaims))
    else inl (ErrorString "invalid or expired jwt")
|}.

Definition sampleConfig : RouterConfig := mkRouterConfig true (Some "secret").

(** The context of an exchange before any middleware has run. *)
Definition incoming (req : Request) : Context := mkContext req ∅ [] [].

Definition anonymousRequest : Request :=
  mkRequest (<["X-TenantId" := ["acme"]]> ∅) "/orders" "".

(** [func(ctx micro.Ctx) (interface{}, error)] returning a nil payload
    and a functional error. *)
Definition rejectingHandler : Handler :=
  Func [micro_Ctx_type]
    (λ _ _, Returns [NilValue;
                     NonNil (Err (FunctionalError "order.invalid" "invalid order" Nil))]).

(** [func(ctx micro.Ctx) (interface{}, error)] that panics with the
    given value. *)
Definition panickingHandler (v : any) : Handler :=
  Func [micro_Ctx_type] (λ _ _, Panics v).

(** [func(ctx micro.Ctx, in OrderInput) (interface{}, error)] returning
    its input. *)
Definition echoingHandler : Handler :=
  Func [micro_Ctx_type; named_type "OrderInput"]
    (λ _ input, Returns [NonNil (default Nil input); NilValue]).

(** Claims that carry both aliases of the roles, and claims whose
    [name] is not a string. *)
Definition aliasedClaims : gmap string any := <["role" := Str "guest"]> sampleClaims.

Definition numericNameClaims : gmap string any := <["name" := Num 7]> sampleClaims.

(** The context in which the success handler of the token middleware
    runs: the verified token is stored under [micro.AuthKey]. *)
Definition verified (env : Collaborators) (claims : gmap string any) : Context :=
  mkContext (mkRequest (<["Authorization" := ["Bearer t1"]]> ∅) "/orders" "")
    (<[AuthKey env := TokenValue (mkToken (MapClaims claims))]> ∅) [] [].

(** [func()], a function without parameters. *)
Definition parameterlessHandler : Handler := Func [] (λ _ _, Returns []).

(** A request whose body names an order. *)
Definition orderRequest : Request := mkRequest ∅ "/orders" "widget".

(** The request context of an exchange whose store is empty. *)
Definition defaultCtx : Ctx := micro_NewCtx "default".

Definition rejection : error := FunctionalError "order.invalid" "invalid order" Nil.

Definition outage : error := TechnicalError "db.down" "database unavailable" Nil.

(** ** Route filters and registration *)

(** [micro.MiddlewareFunc], a filter of a route: a function of the
    request context that returns an error, or nil to let the request
    pass; like any Go function it may panic. *)
Definition Filter : Type := Ctx → outcome (option error).

(** What the closure built in the body of a [for ... range] loop
    captures depends on the Go version of the module, which is not part
    of the sources at hand: the variable of its own iteration (from Go
    1.22 on), or the one variable of the loop, which holds the last
    element by the time a request arrives. *)
Inductive loopvar : Type :=
| PerIteration
| PerLoop.

Section Routes.
Context (env : Collaborators).

(** The middleware [createMiddlewares] builds around a filter. *)
Definition filterMiddleware (filter : Filter) (next : M (option error)) : M (option error) :=
  ctx ← createRouteContext env;
  err ← ((λ c, (filter ctx, c)) : M (option error));
  match err with
  | Some e => mapHttpResponse e
  | None => next
  end.

Definition createMiddlewares (semantics : loopvar) (filters : list Filter)
  : list (M (option error) → M (option error)) :=
  map (λ filter,
         filterMiddleware
           match semantics with
           | PerIteration => filter
           | PerLoop => default filter (last filters)
           end)
      filters.

(** [applyMiddleware] of echo: the first middleware is the outermost. *)
Definition echo_applyMiddleware (h : M (option error))
    (middleware : list (M (option error) → M (option error))) : M (option error) :=
  foldr (λ m h, m h) h middleware.

(** What [echoRouterAdapter.request] registers with [e.Match]: the
    function of the handler behind the middlewares of the filters. *)
Definition echoRouterAdapter_route (semantics : loopvar) (handler : Handler)
    (filters : list Filter) : M (option error) :=
  echo_applyMiddleware (echoRouterAdapter_request env handler)
    (createMiddlewares semantics filters).

(** What [echoGroupRoute.request] registers with [g.Match] on the group
    [echoRouterAdapter.Group] made with its own filters: echo puts the
    middlewares of the group in front of those of the route. *)
Definition echoGroupRoute_route (semantics : loopvar) (groupFilters : list Filter)
    (handler : Handler) (filters : list Filter) : M (option error) :=
  echo_applyMiddleware (echoGroupRoute_request env handler)
    (createMiddlewares semantics groupFilters ++ createMiddlewares semantics filters).

End Routes.

(** ** The field names of the validator *)

(** The scan of [strings.SplitN]: [k] is the number of separators that
    may still split the string. *)
Fixpoint splitn_from (sep : string) (k skip : nat) (cur s : string) : list string :=
  match s with
  | EmptyString => [cur]
  | String ch rest =>
      match skip with
      | S j => splitn_from sep k j cur rest
      | O =>
          match k with
          | O => [cur +:+ s]
          | S k' =>
              if strings_HasPrefix s sep
              then cur :: splitn_from sep k' (Nat.pred (String.length sep)) EmptyString rest
              else splitn_from sep k O (cur +:+ String ch EmptyString) rest
          end
      end
  end.

(** [strings.SplitN(s, sep, n)] for a separator that is not empty: nil
    for [n = 0], every piece for a negative [n], and otherwise at most
    [n] pieces, the last one being the rest of the string. *)
Definition strings_SplitN (s sep : string) (n : Z) : list string :=
  if decide (n = 0) then []
  else if decide (n < 0) then strings_Split s sep
  else splitn_from sep (Z.to_nat (n - 1)) O EmptyString s.

(** The function [init] registers with [validate.RegisterTagNameFunc],
    on the value of the [json] key of the tag of a struct field
    ([fld.Tag.Get("json")]): indexing the pieces panics when there is
    none. *)
Definition init_TagNameFunc (jsonTag : string) : outcome string :=
  match strings_SplitN jsonTag "," 2 with
  | name :: _ => if decide (name = "-") then Returns "" else Returns name
  | [] => Panics (Err (RuntimeError "index out of range [0] with length 0"))
  end.

(** ** Vocabulary of the further statements *)

(** Whether a string holds a comma (the character of code 44). *)
Fixpoint hasComma (s : string) : bool :=
  match s with
  | EmptyString => false
  | String ch rest => Ascii.eqb ch (Ascii.ascii_of_nat 44) || hasComma rest
  end.

(** Every claim the success handler asserts to be a string is one, when
    it is present. *)
Definition consultedClaimsAreStrings (m : gmap string any) : bool :=
  stringOrAbsent m "roles" && stringOrAbsent m "role" && optionalClaimsAreStrings m.

(** The authentication the success handler builds from map claims whose
    consulted claims are strings. *)
Definition authenticationOf (env : Collaborators) (config : RouterConfig)
    (m : gmap string any) : Authentication :=
  let issuer := parseString m "iss" in
  mkAuthentication true
    (if MultiTenant config && negb (bool_decide (issuer = ""))
     then issuer else DefaultTenantId env)
    (parseString m "sub")
    match m !! "role", m !! "roles" with
    | Some (Str role), _ => strings_Split role ","
    | _, Some (Str roles) => strings_Split roles ","
    | _, _ => []
    end
    match m !! "permissions" with
    | Some (Str permissions) => strings_Split permissions ","
    | _ => []
    end
    (parseString m "name")
    (parseString m "email")
    match m !! "phone" with
    | Some (Str phone) => phone
    | _ => parseString m "phone_number"
    end
    (Some m)
    (Some issuer).

(** The unauthenticated authentication of the first middleware. *)
Definition anonymousOf (env : Collaborators) (req : Request) : Authentication :=
  mkAuthentication false
    (if decide (Header_Get (Header req) "X-TenantId" = "") then DefaultTenantId env
     else Header_Get (Header req) "X-TenantId")
    "" [] [] "" "" "" None None.

(** The outcome of a unit of work: a response is written exactly when it
    ends with a nil error, and then it is one response of status 200; a
    panic of the unit of work carries an error unless it is a panic of
    the handler. *)
Definition workOutcome (Call : Ctx → option any → outcome (list rvalue)) (tx : Ctx)
    (r : outcome (option error)) (rs : list Response) : Prop :=
  ((r = Returns None ∧ ∃ v, rs = [mkResponse StatusOK v]) ∨ (r ≠ Returns None ∧ rs = [])) ∧
  (∀ v, r = Panics v → isError v = true ∨ ∃ input, Call tx input = Panics v).

(** The events of a unit of work: the invocation of the handler, or,
    when the work fails before it, nothing or one line of the log. *)
Definition workEvents (tx : Ctx) (r : outcome (option error)) (evs : list event) : Prop :=
  (∃ input, evs = [Invoked tx input]) ∨
  (r ≠ Returns None ∧ (evs = [] ∨ ∃ v, evs = [LogError v])).


(** ** Further samples *)

(** A filter that lets every request pass, and one that refuses every
    request. *)
Definition passingFilter : Filter := λ _, Returns None.

Definition refusingFilter : Filter :=
  λ _, Returns (Some (ForbiddenError "tenant.forbidden" "forbidden" Nil)).

(** A request with a bearer token the sample verifier accepts, one with
    a token it refuses, and one with basic credentials. *)
Definition bearerRequest : Request :=
  mkRequest (<["Authorization" := ["Bearer t1"]]> (<["X-TenantId" := ["acme"]]> ∅)) "/orders" "".

Definition forgedRequest : Request :=
  mkRequest (<["Authorization" := ["Bearer t0"]]> ∅) "/orders" "".

Definition basicRequest : Request :=
  mkRequest (<["Authorization" := ["Basic dTpw"]]> ∅) "/orders" "".

(** [func(ctx micro.Ctx) (interface{}, error)] returning the tenant of
    its context. *)
Definition tenantHandler : Handler :=
  Func [micro_Ctx_type] (λ ctx _, Returns [NonNil (Str (ctx_TenantId ctx)); NilValue]).

(** [func(ctx micro.Ctx) error] returning an error as its only
    result. *)
Definition failingHandler : Handler :=
  Func [micro_Ctx_type] (λ _ _, Returns [NonNil (Err rejection)]).



(** Collaborators whose binder fails on the body of every request. *)
Definition brokenBinderEnv : Collaborators :=
  mkCollaborators "default" "auth" sampleError_Error (λ _, "panic")
    (reflect_Zero sampleEnv) (λ _ _, BindError (ErrorString "unexpected EOF"))
    (binder_BindHeaders sampleEnv) (validate_Struct sampleEnv) (jwt_Parse sampleEnv).

(** [func(ctx micro.Ctx)], a handler without results, and
    [func(ctx micro.Ctx) (interface{}, int)], whose second result has a
    kind without nil. *)
Definition silentHandler : Handler := Func [micro_Ctx_type] (λ _ _, Returns []).

Definition countingHandler : Handler :=
  Func [micro_Ctx_type] (λ _ _, Returns [NilValue; NotNilable (Num 1)]).

(** A filter that panics with an error of the taxonomy. *)
Definition panickingFilter : Filter :=
  λ _, Panics (Err (ForbiddenError "tenant.forbidden" "forbidden" Nil)).

(** * Properties *)

(** ** Running the monad *)

Lemma bind_returns {A B} (m : M A) (f : A → M B) (c c' : Context) (a : A) :
  m c = (Returns a, c') → (m ≫= f) c = f a c'.
Proof. intros H. unfold mbind, M_bind. by rewrite H. Qed.

Lemma bind_panics {A B} (m : M A) (f : A → M B) (c c' : Context) (v : any) :
  m c = (Panics v, c') → (m ≫= f) c = (Panics v, c').
Proof. intros H. unfold mbind, M_bind. by rewrite H. Qed.

Lemma after_after (c : Context) (evs evs' : list event) (rs rs' : list Response) :
  after (after c evs rs) evs' rs' = after c (evs ++ evs') (rs ++ rs').
Proof. unfold after; simpl. by rewrite !app_assoc. Qed.

Lemma after_nil (c : Context) : after c [] [] = c.
Proof. destruct c. unfold after; simpl. by rewrite !app_nil_r. Qed.

(** ** Package strings *)

Example Split_roles : strings_Split "admin,editor" "," = ["admin"; "editor"].
Proof. reflexivity. Qed.

Example Split_no_separator : strings_Split "admin" "," = ["admin"].
Proof. reflexivity. Qed.

Example Split_empty : strings_Split "" "," = [""].
Proof. reflexivity. Qed.

Example Split_trailing : strings_Split "a,,b," "," = ["a"; ""; "b"; ""].
Proof. reflexivity. Qed.

(** ** The error mapper *)

(** C1: for each of the six taxonomy kinds the error mapper writes one
    response, with the documented status (400, 500, 403, 401, 404, 409
    in the order of the kinds) and a body that carries the kind, the
    message and the details of the error unchanged, and returns nil. *)
Theorem mapHttpResponse_taxonomy (t : taxonomy) (kind message : string) (details : any)
    (c : Context) :
  mapHttpResponse (taxonomyError t kind message details) c =
    (Returns None,
     after c [LogError (Err (taxonomyError t kind message details))]
             [mkResponse (documentedStatus t) (micro_ErrorResponse kind message details)]).
Proof. destruct t; reflexivity. Qed.

Lemma mapHttpResponse_Technical (kind message : string) (details : any) (c : Context) :
  mapHttpResponse (TechnicalError kind message details) c =
    (Returns None,
     after c [LogError (Err (TechnicalError kind message details))]
       [mkResponse StatusInternalServerError (micro_ErrorResponse kind message details)]).
Proof. reflexivity. Qed.

(** The mapper answers an [*echo.HTTPError] itself, with the code and
    the message of the error. *)
Lemma mapHttpResponse_HTTPError (code : Z) (message : any) (c : Context) :
  mapHttpResponse (HTTPError code message) c =
    (Returns None, after c [LogError (Err (HTTPError code message))] [mkResponse code message]).
Proof. reflexivity. Qed.

(** C8, as stated, fails: an [*echo.HTTPError] is none of the six
    taxonomy kinds, and the mapper does not return it; it writes a
    response and returns nil. *)
Lemma mapHttpResponse_HTTPError_is_mapped :
  isTaxonomyError (HTTPError 418 (Str "teapot")) = false ∧
  mapHttpResponse (HTTPError 418 (Str "teapot")) (incoming anonymousRequest) =
    (Returns None,
     mkContext anonymousRequest ∅ [mkResponse 418 (Str "teapot")]
       [LogError (Err (HTTPError 418 (Str "teapot")))]) ∧
  fst (mapHttpResponse (HTTPError 418 (Str "teapot")) (incoming anonymousRequest))
    ≠ Returns (Some (HTTPError 418 (Str "teapot"))).
Proof. split; [reflexivity|]. split; [reflexivity|]. simpl. discriminate. Qed.

(** C8, amended: an error that is neither one of the six taxonomy kinds
    nor an [*echo.HTTPError] is returned unmapped: the mapper logs it,
    writes no response and returns the same error, which the transport
    then answers with its default handling, status 500. *)
Theorem mapHttpResponse_fallback (env : Collaborators) (err : error) (c : Context) :
  isTaxonomyError err = false →
  isHTTPError err = false →
  responses c = [] →
  mapHttpResponse err c = (Returns (Some err), after c [LogError (Err err)] []) ∧
  echo_ServeHTTP env (mapHttpResponse err) c =
    (Returns tt,
     after c [LogError (Err err)]
       [mkResponse StatusInternalServerError (echo_Map_message "Internal Server Error")]).
Proof.
  intros Ht Hh Hempty.
  assert (Hrun : mapHttpResponse err c = (Returns (Some err), after c [LogError (Err err)] [])).
  { destruct err; try discriminate; unfold after; simpl;
      unfold mapHttpResponse, log_Errorf, emit, mbind, M_bind, mret, M_ret; simpl;
      by rewrite app_nil_r. }
  split; [exact Hrun|].
  unfold echo_ServeHTTP.
  rewrite (bind_returns _ _ _ _ _ Hrun).
  unfold echo_DefaultHTTPErrorHandler. simpl. rewrite app_nil_r, Hempty.
  destruct err; try discriminate;
    unfold c_JSON, mbind, M_bind, mret, M_ret, after; simpl;
    by rewrite !app_nil_r.
Qed.

Lemma mapHttpResponse_fallback_witness :
  mapHttpResponse (ErrorString "boom") (incoming anonymousRequest) =
    (Returns (Some (ErrorString "boom")),
     after (incoming anonymousRequest) [LogError (Err (ErrorString "boom"))] []) ∧
  echo_ServeHTTP sampleEnv (mapHttpResponse (ErrorString "boom")) (incoming anonymousRequest) =
    (Returns tt,
     after (incoming anonymousRequest) [LogError (Err (ErrorString "boom"))]
       [mkResponse StatusInternalServerError (echo_Map_message "Internal Server Error")]).
Proof.
  apply (mapHttpResponse_fallback sampleEnv (ErrorString "boom") (incoming anonymousRequest));
    reflexivity.
Defined.

(** ** The unauthenticated path *)

Lemma Header_Get_absent (h : gmap string (list string)) (key : string) :
  h !! key = None → Header_Get h key = "".
Proof. intros H. unfold Header_Get. by rewrite H. Qed.

(** A request without an [Authorization] header passes the token
    middleware untouched. *)
Lemma Skipper_no_authorization (c : Context) :
  Header (request c) !! "Authorization" = None → Skipper c = (Returns true, c).
Proof.
  intros H. unfold Skipper, c_Request, mbind, M_bind. simpl.
  by rewrite (Header_Get_absent _ _ H).
Qed.

Lemma createRouteContext_spec (env : Collaborators) (c : Context) (ctx : Ctx) :
  routeContext env c = Some ctx →
  createRouteContext env c = (Returns ctx, after c [CtxCreated ctx] []).
Proof.
  unfold routeContext, createRouteContext, c_Get, emit, after, mbind, M_bind, mret, M_ret.
  simpl. destruct (store c !! AuthKey env) as [[a|t|v]|]; intros [= <-]; simpl;
    by rewrite app_nil_r.
Qed.

(** C6: for a request without an [Authorization] header the route runs
    on a context whose authentication is unauthenticated and whose
    tenant is the [X-TenantId] header when that header is not empty and
    the default tenant otherwise; the tenant is never empty, the default
    tenant being a non-empty constant. *)
Theorem unauthenticated_context (env : Collaborators) (config : RouterConfig)
    (route : M (option error)) (c : Context) :
  Header (request c) !! "Authorization" = None →
  DefaultTenantId env ≠ "" →
  ∃ auth : Authentication,
    middlewares env config route c =
      echo_Recover env route (storing c (AuthKey env) (AuthValue auth)) ∧
    createRouteContext env (storing c (AuthKey env) (AuthValue auth)) =
      (Returns (micro_NewAuthCtx auth),
       after (storing c (AuthKey env) (AuthValue auth)) [CtxCreated (micro_NewAuthCtx auth)] []) ∧
    Authenticated auth = false ∧
    (Header_Get (Header (request c)) "X-TenantId" ≠ "" →
     TenantId auth = Header_Get (Header (request c)) "X-TenantId") ∧
    (Header_Get (Header (request c)) "X-TenantId" = "" →
     TenantId auth = DefaultTenantId env) ∧
    TenantId auth ≠ "".
Proof.
  intros Hauthz Hdefault.
  set (tenantId := Header_Get (Header (request c)) "X-TenantId").
  exists (mkAuthentication false
            (if decide (tenantId = "") then DefaultTenantId env else tenantId)
            "" [] [] "" "" "" None None).
  split; [|split; [|split; [reflexivity|]]].
  - unfold middlewares, tenantMiddleware, c_Request, c_Set, mbind, M_bind. simpl.
    fold tenantId. unfold storing.
    destruct (TokenProvider config) as [key|]; [|reflexivity].
    unfold echo_Recover, recovering, echojwt_WithConfig, mbind, M_bind.
    by rewrite Skipper_no_authorization.
  - apply createRouteContext_spec. unfold routeContext, storing. simpl.
    by rewrite lookup_insert_eq.
  - simpl. destruct (decide (tenantId = "")); split_and!; congruence.
Qed.

Lemma unauthenticated_context_witness :
  ∃ auth : Authentication,
    middlewares sampleEnv sampleConfig (mret None) (incoming anonymousRequest) =
      echo_Recover sampleEnv (mret None)
        (storing (incoming anonymousRequest) (AuthKey sampleEnv) (AuthValue auth)) ∧
    createRouteContext sampleEnv
        (storing (incoming anonymousRequest) (AuthKey sampleEnv) (AuthValue auth)) =
      (Returns (micro_NewAuthCtx auth),
       after (storing (incoming anonymousRequest) (AuthKey sampleEnv) (AuthValue auth))
         [CtxCreated (micro_NewAuthCtx auth)] []) ∧
    Authenticated auth = false ∧
    (Header_Get (Header (request (incoming anonymousRequest))) "X-TenantId" ≠ "" →
     TenantId auth = Header_Get (Header (request (incoming anonymousRequest))) "X-TenantId") ∧
    (Header_Get (Header (request (incoming anonymousRequest))) "X-TenantId" = "" →
     TenantId auth = DefaultTenantId sampleEnv) ∧
    TenantId auth ≠ "".
Proof.
  apply (unauthenticated_context sampleEnv sampleConfig (mret None) (incoming anonymousRequest)).
  - reflexivity.
  - discriminate.
Defined.

(** The example of the specification: [X-TenantId: acme] and no
    [Authorization] header give the tenant [acme], unauthenticated. *)
Example tenant_header_acme :
  fst (createRouteContext sampleEnv
         (snd (tenantMiddleware sampleEnv (mret None) (incoming anonymousRequest)))) =
    Returns (mkCtx "acme" (Some (mkAuthentication false "acme" "" [] [] "" "" "" None None))).
Proof. vm_compute. reflexivity. Qed.

(** ** The authenticated path *)

Lemma claim_run (m : gmap string any) (key : string)
    (assign : Authentication → string → Authentication) (auth : Authentication) (c : Context) :
  claim m key assign auth c =
    match m !! key with
    | None => (Returns auth, c)
    | Some (Str s) => (Returns (assign auth s), c)
    | Some _ => (Panics assertion_failed, c)
    end.
Proof. unfold claim. destruct (m !! key) as [[]|]; reflexivity. Qed.

(** The loop that copies the claims builds the same map. *)
Lemma claims_copied (m : gmap string any) :
  map_fold (λ key value acc, <[key := value]> acc) ∅ m = m.
Proof.
  apply (map_fold_weak_ind (λ r m, r = m)); [done|].
  intros i x m' r _ ->. reflexivity.
Qed.

(** The token middleware stores a verified token under the context key
    and runs the success handler before the route. *)
Lemma echojwt_verified (env : Collaborators) (key ContextKey : string)
    (onError : error → M (option error)) (onSuccess : M unit) (next : M (option error))
    (c : Context) (token : jwt_Token) :
  Skipper c = (Returns false, c) →
  jwt_Parse env key (request c) = inr token →
  echojwt_WithConfig env key ContextKey Skipper onError onSuccess next c =
    (onSuccess;; next) (storing c ContextKey (TokenValue token)).
Proof.
  intros Hskip Hparse. unfold echojwt_WithConfig.
  rewrite (bind_returns _ _ _ _ _ Hskip). unfold c_Request, c_Set, mbind, M_bind at 1.
  by rewrite Hparse.
Qed.

(** C5, amended: for verified map claims with subject [s], issuer [i] and
    a string [roles] claim, without a [role] claim and with the other
    optional claims being strings when present, the success handler
    stores an authentication with user [s], authenticated, the roles
    being the comma-split of the [roles] claim in order and the claims
    copied verbatim; its tenant is [i] when multi-tenancy is enabled and
    [i] is not empty, and the default tenant otherwise. *)
Theorem authenticated_context (env : Collaborators) (config : RouterConfig) (c : Context)
    (token : jwt_Token) (m : gmap string any) (s i r : string) :
  store c !! AuthKey env = Some (TokenValue token) →
  token_Claims token = MapClaims m →
  m !! "sub" = Some (Str s) →
  m !! "iss" = Some (Str i) →
  m !! "roles" = Some (Str r) →
  m !! "role" = None →
  optionalClaimsAreStrings m = true →
  ∃ auth : Authentication,
    SuccessHandler env config c = (Returns tt, storing c (AuthKey env) (AuthValue auth)) ∧
    UserId auth = s ∧
    Authenticated auth = true ∧
    Roles auth = strings_Split r "," ∧
    Claims auth = Some m ∧
    (MultiTenant config = true → i ≠ "" → TenantId auth = i) ∧
    (MultiTenant config = false ∨ i = "" → TenantId auth = DefaultTenantId env).
Proof.
  intros Hstore Hclaims Hsub Hiss Hroles Hrole Hopt.
  unfold SuccessHandler, c_Get, mbind at 1, M_bind at 1. rewrite Hstore, Hclaims. simpl.
  unfold parseString. rewrite Hsub, Hiss.
  unfold optionalClaimsAreStrings, stringOrAbsent in Hopt.
  unfold mbind, M_bind.
  rewrite claim_run, Hroles. simpl.
  rewrite claim_run, Hrole. simpl.
  rewrite claims_copied.
  set (tenantId := if MultiTenant config && negb (bool_decide (i = "")) then i
                   else DefaultTenantId env).
  assert (Htenant : (MultiTenant config = true → i ≠ "" → tenantId = i) ∧
                    (MultiTenant config = false ∨ i = "" → tenantId = DefaultTenantId env)).
  { subst tenantId. split.
    - intros -> Hi. simpl. by rewrite bool_decide_eq_false_2.
    - intros [-> | ->]; [reflexivity|]. by rewrite andb_false_r. }
  clearbody tenantId.
  rewrite claim_run.
  destruct (m !! "permissions") as [[]|]; simpl in Hopt |- *; try discriminate;
    (rewrite claim_run;
     destruct (m !! "name") as [[]|]; simpl in Hopt |- *; try discriminate;
       (rewrite claim_run;
        destruct (m !! "email") as [[]|]; simpl in Hopt |- *; try discriminate;
          (destruct (m !! "phone") as [[]|]; simpl in Hopt |- *; try discriminate;
             [|rewrite claim_run;
               destruct (m !! "phone_number") as [[]|]; simpl in Hopt |- *;
               try discriminate];
             (eexists; split; [reflexivity|]; simpl; split_and!; tauto)))).
Qed.

Lemma authenticated_context_witness :
  ∃ auth : Authentication,
    SuccessHandler sampleEnv sampleConfig (verified sampleEnv sampleClaims) =
      (Returns tt, storing (verified sampleEnv sampleClaims) (AuthKey sampleEnv) (AuthValue auth)) ∧
    UserId auth = "u1" ∧
    Authenticated auth = true ∧
    Roles auth = strings_Split "admin,editor" "," ∧
    Claims auth = Some sampleClaims ∧
    (MultiTenant sampleConfig = true → "acme.org" ≠ "" → TenantId auth = "acme.org") ∧
    (MultiTenant sampleConfig = false ∨ "acme.org" = "" →
     TenantId auth = DefaultTenantId sampleEnv).
Proof.
  apply (authenticated_context sampleEnv sampleConfig (verified sampleEnv sampleClaims)
           (mkToken (MapClaims sampleClaims)) sampleClaims "u1" "acme.org" "admin,editor");
    reflexivity.
Defined.

(** The example of the specification: the claims [sub: u1],
    [iss: acme.org], [roles: admin,editor] under multi-tenancy. *)
Example bearer_token_example :
  SuccessHandler sampleEnv sampleConfig (verified sampleEnv sampleClaims) =
    (Returns tt,
     storing (verified sampleEnv sampleClaims) "auth"
       (AuthValue (mkAuthentication true "acme.org" "u1" ["admin"; "editor"] [] "" "" ""
                     (Some sampleClaims) (Some "acme.org")))).
Proof. vm_compute. reflexivity. Qed.

(** C5, as stated, fails: with a [role] claim next to the [roles] claim
    the roles are the split of [role]; and with a claim [name] that is
    not a string the success handler panics and stores no
    authentication. *)
Lemma roles_claim_not_final :
  aliasedClaims !! "sub" = Some (Str "u1") ∧
  aliasedClaims !! "iss" = Some (Str "acme.org") ∧
  aliasedClaims !! "roles" = Some (Str "admin,editor") ∧
  SuccessHandler sampleEnv sampleConfig (verified sampleEnv aliasedClaims) =
    (Returns tt,
     storing (verified sampleEnv aliasedClaims) "auth"
       (AuthValue (mkAuthentication true "acme.org" "u1" ["guest"] [] "" "" ""
                     (Some aliasedClaims) (Some "acme.org")))) ∧
  ["guest"] ≠ strings_Split "admin,editor" "," ∧
  numericNameClaims !! "roles" = Some (Str "admin,editor") ∧
  SuccessHandler sampleEnv sampleConfig (verified sampleEnv numericNameClaims) =
    (Panics assertion_failed, verified sampleEnv numericNameClaims).
Proof.
  split_and!; try (vm_compute; reflexivity). vm_compute. discriminate.
Qed.

(** C9: for verified map claims with strings under both [roles] and
    [role], whatever the other claims, the success handler either stores
    an authentication whose roles are the comma-split of the [role]
    claim, or panics, and it panics only when one of the other optional
    claims is not a string: [role] is read after [roles], by two
    statements in a fixed order, and overwrites it. *)
Theorem role_overrides_roles (env : Collaborators) (config : RouterConfig) (c : Context)
    (token : jwt_Token) (m : gmap string any) (a b : string) :
  store c !! AuthKey env = Some (TokenValue token) →
  token_Claims token = MapClaims m →
  m !! "roles" = Some (Str a) →
  m !! "role" = Some (Str b) →
  match SuccessHandler env config c with
  | (Returns _, c') =>
      ∃ auth : Authentication,
        c' = storing c (AuthKey env) (AuthValue auth) ∧
        Roles auth = strings_Split b ","
  | (Panics _, _) => optionalClaimsAreStrings m = false
  end.
Proof.
  intros Hstore Hclaims Hroles Hrole.
  unfold SuccessHandler, c_Get, mbind at 1, M_bind at 1. rewrite Hstore, Hclaims. simpl.
  unfold optionalClaimsAreStrings, stringOrAbsent.
  unfold mbind, M_bind.
  rewrite claim_run, Hroles. simpl.
  rewrite claim_run, Hrole. simpl.
  rewrite claim_run.
  destruct (m !! "permissions") as [[]|]; simpl; try reflexivity;
    (rewrite claim_run;
     destruct (m !! "name") as [[]|]; simpl; try reflexivity;
       (rewrite claim_run;
        destruct (m !! "email") as [[]|]; simpl; try reflexivity;
          (destruct (m !! "phone") as [[]|]; simpl; try reflexivity;
             [|rewrite claim_run;
               destruct (m !! "phone_number") as [[]|]; simpl; try reflexivity];
             (eexists; split; reflexivity)))).
Qed.

Lemma role_overrides_roles_witness :
  match SuccessHandler sampleEnv sampleConfig (verified sampleEnv aliasedClaims) with
  | (Returns _, c') =>
      ∃ auth : Authentication,
        c' = storing (verified sampleEnv aliasedClaims) (AuthKey sampleEnv) (AuthValue auth) ∧
        Roles auth = strings_Split "guest" ","
  | (Panics _, _) => optionalClaimsAreStrings aliasedClaims = false
  end.
Proof.
  apply (role_overrides_roles sampleEnv sampleConfig (verified sampleEnv aliasedClaims)
           (mkToken (MapClaims aliasedClaims)) aliasedClaims "admin,editor" "guest");
    reflexivity.
Defined.

(** ** The dispatcher *)

Lemma emit_run (e : event) (c : Context) : emit e c = (Returns tt, after c [e] []).
Proof. unfold emit, after. by rewrite app_nil_r. Qed.

Lemma c_JSON_run (code : Z) (v : any) (c : Context) :
  c_JSON code v c = (Returns None, after c [] [mkResponse code v]).
Proof. unfold c_JSON, after. by rewrite app_nil_r. Qed.

Lemma Bind_valid (env : Collaborators) (input v1 v2 : any) (c : Context) :
  binder_Bind env (request c) input = Bound v1 →
  binder_BindHeaders env (request c) v1 = Bound v2 →
  validate_Struct env v2 = Valid →
  Bind env input c = (Returns (v2, None), c).
Proof.
  intros H1 H2 H3. unfold Bind, c_Request, mbind, M_bind. by rewrite H1, H2, H3.
Qed.

(** The end of the transactional scope on the outcome of the unit of
    work. *)
Lemma Tx_run (ctx : Ctx) (work : Ctx → M (option error)) (c : Context) :
  Tx ctx work c =
    match work ctx (after c [TxBegin] []) with
    | (Returns None, c') => (Returns None, after c' [TxCommit] [])
    | (Returns (Some e), c') => (Returns (Some e), after c' [TxRollback] [])
    | (Panics v, c') => (Panics v, after c' [TxRollback] [])
    end.
Proof.
  unfold Tx. rewrite (bind_returns _ _ _ _ _ (emit_run TxBegin c)).
  destruct (work ctx (after c [TxBegin] [])) as [[[e|]|v] c'];
    unfold mbind, M_bind; rewrite emit_run; reflexivity.
Qed.

(** A function of one or two parameters whose first is [micro.Ctx]
    passes the validation of its shape: the request context is built and
    the unit of work runs in the transactional scope. *)
Lemma handleRequest_enters (env : Collaborators) (In : list rtype)
    (Call : Ctx → option any → outcome (list rvalue)) (c : Context) (ctx : Ctx) :
  routeContext env c = Some ctx →
  In !! 0%nat = Some micro_Ctx_type →
  (length In = 1 ∨ length In = 2)%nat →
  handleRequest env (Func In Call) c =
    match unitOfWork env In Call ctx (after c (entering ctx) []) with
    | (Returns None, c') => (Returns None, after c' [TxCommit] [])
    | (Returns (Some e), c') => (Returns (Some e), after c' [TxRollback] [])
    | (Panics v, c') => (Panics v, after c' [TxRollback] [])
    end.
Proof.
  intros Hctx Hfirst Hlen.
  unfold handleRequest.
  destruct (decide (length In = 0%nat)); [lia|].
  destruct (decide (2 < length In)%nat); [lia|].
  rewrite Hfirst. destruct (decide (micro_Ctx_type ≠ micro_Ctx_type)); [contradiction|].
  rewrite (bind_returns _ _ _ _ _ (createRouteContext_spec env c ctx Hctx)).
  assert (Hentered :
    ((if decide (ctx_TenantId ctx = "") then mret tt
      else log_Debugf ("current tenant_id is " +:+ ctx_TenantId ctx)) : M unit)
      (after c [CtxCreated ctx] []) =
    (Returns tt,
     after c (CtxCreated ctx ::
              (if decide (ctx_TenantId ctx = "") then []
               else [LogDebug ("current tenant_id is " +:+ ctx_TenantId ctx)])) [])).
  { destruct (decide (ctx_TenantId ctx = "")); [reflexivity|].
    unfold log_Debugf. by rewrite emit_run, after_after. }
  rewrite (bind_returns _ _ _ _ _ Hentered).
  rewrite Tx_run, after_after. reflexivity.
Qed.

Lemma boundInput_shape (env : Collaborators) (In : list rtype) (req : Request)
    (input : option any) :
  boundInput env In req = Some input →
  In !! 0%nat = Some micro_Ctx_type ∧ (length In = 1 ∨ length In = 2)%nat.
Proof.
  intros Hbound.
  destruct In as [|t [|T [|? ?]]]; simpl in Hbound; try discriminate;
    destruct (decide (t = micro_Ctx_type)); try discriminate; subst; simpl;
    split; try reflexivity; lia.
Qed.

(** With the input bound and valid, the unit of work is the invocation
    of the handler on the request context and that input. *)
Lemma handleRequest_invokes (env : Collaborators) (In : list rtype)
    (Call : Ctx → option any → outcome (list rvalue)) (c : Context) (ctx : Ctx)
    (input : option any) :
  routeContext env c = Some ctx →
  boundInput env In (request c) = Some input →
  handleRequest env (Func In Call) c =
    match invoke Call None ctx input (after c (entering ctx) []) with
    | (Returns None, c') => (Returns None, after c' [TxCommit] [])
    | (Returns (Some e), c') => (Returns (Some e), after c' [TxRollback] [])
    | (Panics v, c') => (Panics v, after c' [TxRollback] [])
    end.
Proof.
  intros Hctx Hbound.
  destruct (boundInput_shape env In (request c) input Hbound) as [Hfirst Hlen].
  rewrite (handleRequest_enters env In Call c ctx Hctx Hfirst Hlen).
  assert (Hwork : unitOfWork env In Call ctx (after c (entering ctx) []) =
                  invoke Call None ctx input (after c (entering ctx) [])).
  { unfold unitOfWork.
    destruct In as [|t [|T [|? ?]]]; simpl in Hbound |- *; try discriminate.
    - destruct (decide (t = micro_Ctx_type)); [|discriminate]. by injection Hbound as <-.
    - destruct (decide (t = micro_Ctx_type)); [|discriminate].
      destruct (binder_Bind env (request c) (reflect_Zero env T)) as [v1|] eqn:H1;
        [|discriminate].
      destruct (binder_BindHeaders env (request c) v1) as [v2|] eqn:H2; [|discriminate].
      destruct (validate_Struct env v2) eqn:H3; try discriminate.
      injection Hbound as <-.
      by rewrite (bind_returns _ _ _ _ _
                    (Bind_valid env _ v1 v2 (after c (entering ctx) []) H1 H2 H3)). }
  by rewrite Hwork.
Qed.

Lemma invoke_panics (Call : Ctx → option any → outcome (list rvalue)) (err : option error)
    (tx : Ctx) (input : option any) (v : any) (c : Context) :
  Call tx input = Panics v →
  invoke Call err tx input c = (Panics v, after c [Invoked tx input] []).
Proof.
  intros H. unfold invoke. rewrite (bind_returns _ _ _ _ _ (emit_run _ c)).
  unfold mbind, M_bind. by rewrite H.
Qed.

Lemma invoke_returns (Call : Ctx → option any → outcome (list rvalue)) (err : option error)
    (tx : Ctx) (input : option any) (res : list rvalue) (c : Context) :
  Call tx input = Returns res →
  invoke Call err tx input c =
    match res with
    | [r0] => respond err (Interface r0)
    | [r0; r1] =>
        isNil ← IsNil r1;
        if (isNil : bool) then respond err (Interface r0)
        else e ← assert_error (Interface r1); mret (Some e)
    | _ => mret (Some (fmt_Errorf "invalid handler return type"))
    end (after c [Invoked tx input] []).
Proof.
  intros H. unfold invoke. rewrite (bind_returns _ _ _ _ _ (emit_run _ c)).
  unfold mbind at 1, M_bind at 1. by rewrite H.
Qed.

(** A handler that panics: the transaction is rolled back and the panic
    goes on to the caller of [handleRequest]. *)
Lemma handleRequest_panics (env : Collaborators) (In : list rtype)
    (Call : Ctx → option any → outcome (list rvalue)) (c : Context) (ctx : Ctx)
    (input : option any) (v : any) :
  routeContext env c = Some ctx →
  boundInput env In (request c) = Some input →
  Call ctx input = Panics v →
  handleRequest env (Func In Call) c = (Panics v, after c (dispatched ctx input TxRollback) []).
Proof.
  intros Hctx Hbound Hcall.
  rewrite (handleRequest_invokes env In Call c ctx input Hctx Hbound).
  rewrite (invoke_panics _ _ _ _ _ _ Hcall), !after_after. reflexivity.
Qed.

(** A handler that returns a payload and a nil error: status 200 with
    the payload, and the transaction is committed. *)
Lemma handleRequest_payload (env : Collaborators) (In : list rtype)
    (Call : Ctx → option any → outcome (list rvalue)) (c : Context) (ctx : Ctx)
    (input : option any) (r0 : rvalue) :
  routeContext env c = Some ctx →
  boundInput env In (request c) = Some input →
  Call ctx input = Returns [r0; NilValue] →
  handleRequest env (Func In Call) c =
    (Returns None,
     after c (dispatched ctx input TxCommit) [mkResponse StatusOK (Interface r0)]).
Proof.
  intros Hctx Hbound Hcall.
  rewrite (handleRequest_invokes env In Call c ctx input Hctx Hbound).
  rewrite (invoke_returns _ _ _ _ _ _ Hcall).
  unfold IsNil, respond, mbind, M_bind, mret, M_ret.
  rewrite c_JSON_run, !after_after. reflexivity.
Qed.

(** A handler that returns an error: the closure returns it at once, the
    transaction is rolled back, and [handleRequest] returns the error
    without a response and without the error mapper. *)
Lemma handleRequest_error (env : Collaborators) (In : list rtype)
    (Call : Ctx → option any → outcome (list rvalue)) (c : Context) (ctx : Ctx)
    (input : option any) (r0 : rvalue) (e : error) :
  routeContext env c = Some ctx →
  boundInput env In (request c) = Some input →
  Call ctx input = Returns [r0; NonNil (Err e)] →
  handleRequest env (Func In Call) c =
    (Returns (Some e), after c (dispatched ctx input TxRollback) []).
Proof.
  intros Hctx Hbound Hcall.
  rewrite (handleRequest_invokes env In Call c ctx input Hctx Hbound).
  rewrite (invoke_returns _ _ _ _ _ _ Hcall).
  unfold IsNil, assert_error, Interface, mbind, M_bind, mret, M_ret.
  rewrite !after_after. reflexivity.
Qed.

(** The routes leave what [handleRequest] returns as it is. *)
Lemma request_returns (env : Collaborators) (handler : Handler) (c c' : Context)
    (r : option error) :
  handleRequest env handler c = (Returns r, c') →
  echoRouterAdapter_request env handler c = (Returns r, c') ∧
  echoGroupRoute_request env handler c = (Returns r, c').
Proof.
  intros H. unfold echoRouterAdapter_request, echoGroupRoute_request, recovering.
  by rewrite H.
Qed.

(** The routes map a panic whose value is an error. *)
Lemma request_recovers (env : Collaborators) (handler : Handler) (c c' : Context) (e : error) :
  handleRequest env handler c = (Panics (Err e), c') →
  echoRouterAdapter_request env handler c = mapHttpResponse e c' ∧
  echoGroupRoute_request env handler c = mapHttpResponse e (after c' [LogError (Err e)] []).
Proof.
  intros H. unfold echoRouterAdapter_request, echoGroupRoute_request, recovering.
  rewrite H. split; [reflexivity|].
  unfold log_Error. rewrite (bind_returns _ _ _ _ _ (emit_run _ c')). reflexivity.
Qed.

(** ** Shape validation *)

(** C3: a handler of malformed shape (not callable, no parameter, more
    than two, or a first parameter that is not [micro.Ctx]) is rejected
    with an internal error, neither a taxonomy error nor an HTTP error,
    before the request context is built, the transaction started or the
    handler invoked: the routes return the error and leave the exchange
    as it was but for log lines, and for every handler value other than
    the nil interface [handleRequest] returns the error itself and
    nothing at all changes. *)
Theorem malformed_handler_rejected (env : Collaborators) (handler : Handler) (c : Context) :
  malformed handler = true →
  ∃ (e : error) (logs logs' : list event),
    isTaxonomyError e = false ∧ isHTTPError e = false ∧
    forallb isLog logs = true ∧ forallb isLog logs' = true ∧
    (handleRequest env handler c = (Returns (Some e), c) ∨
     handleRequest env handler c = (Panics (Err e), c)) ∧
    echoRouterAdapter_request env handler c = (Returns (Some e), after c logs []) ∧
    echoGroupRoute_request env handler c = (Returns (Some e), after c logs' []) ∧
    (handler ≠ NilHandler →
     handleRequest env handler c = (Returns (Some e), c) ∧ logs = [] ∧ logs' = []).
Proof.
  intros Hbad.
  assert (Hreturned : ∀ msg, handler ≠ NilHandler →
            handleRequest env handler c = (Returns (Some (ErrorString msg)), c) →
            ∃ (e : error) (logs logs' : list event),
              isTaxonomyError e = false ∧ isHTTPError e = false ∧
              forallb isLog logs = true ∧ forallb isLog logs' = true ∧
              (handleRequest env handler c = (Returns (Some e), c) ∨
               handleRequest env handler c = (Panics (Err e), c)) ∧
              echoRouterAdapter_request env handler c = (Returns (Some e), after c logs []) ∧
              echoGroupRoute_request env handler c = (Returns (Some e), after c logs' []) ∧
              (handler ≠ NilHandler →
               handleRequest env handler c = (Returns (Some e), c) ∧ logs = [] ∧ logs' = [])).
  { intros msg Hnn Hrun. exists (ErrorString msg), [], [].
    destruct (request_returns env handler c c _ Hrun) as [Hr Hg].
    rewrite after_nil. split_and!; auto. }
  destruct handler as [|v|In Call].
  - exists (RuntimeError "invalid memory address or nil pointer dereference"),
      [LogError nil_dereference], [LogError nil_dereference; LogError nil_dereference].
    split_and!; try reflexivity; try congruence; try (by right);
      unfold echoRouterAdapter_request, echoGroupRoute_request, recovering, handleRequest,
        panic, log_Error, nil_dereference, assert_error, mapHttpResponse, log_Errorf, emit,
        after, mbind, M_bind, mret, M_ret; simpl;
      by rewrite ?app_nil_r, <- ?app_assoc.
  - eapply Hreturned; [discriminate|reflexivity].
  - simpl in Hbad. destruct In as [|t rest].
    + eapply Hreturned; [discriminate|reflexivity].
    + apply orb_true_iff in Hbad as [Hmany | Hfirst].
      * apply Nat.ltb_lt in Hmany.
        eapply Hreturned; [discriminate|].
        unfold handleRequest.
        destruct (decide (length (t :: rest) = 0%nat)); [discriminate|].
        destruct (decide (2 < length (t :: rest))%nat); [reflexivity|contradiction].
      * apply negb_true_iff, bool_decide_eq_false in Hfirst.
        destruct (decide (2 < length (t :: rest))%nat) as [Hmany|Hfew].
        -- eapply Hreturned; [discriminate|].
           unfold handleRequest.
           destruct (decide (length (t :: rest) = 0%nat)); [discriminate|].
           destruct (decide (2 < length (t :: rest))%nat); [reflexivity|contradiction].
        -- eapply Hreturned; [discriminate|].
           unfold handleRequest.
           destruct (decide (length (t :: rest) = 0%nat)); [discriminate|].
           destruct (decide (2 < length (t :: rest))%nat); [contradiction|].
           simpl. destruct (decide (t ≠ micro_Ctx_type)); [reflexivity|].
           exfalso. by destruct (decide (t = micro_Ctx_type)); auto.
Qed.

(** ** Input binding *)

Lemma fieldErrors_snoc (fes : list FieldError) (fe : FieldError) :
  fieldErrors (fes ++ [fe]) = <[Field fe := Tag fe]> (fieldErrors fes).
Proof. unfold fieldErrors. by rewrite foldl_app. Qed.




Lemma not_invoked_on_entry (ctx : Ctx) (tail : list event) :
  (∀ x input, Invoked x input ∉ tail) →
  ∀ x input, Invoked x input ∉ (entering ctx ++ tail)%list.
Proof.
  intros Htail x input Hin. apply elem_of_app in Hin as [Hin|Hin]; [|by eapply Htail].
  unfold entering in Hin. apply elem_of_cons in Hin as [Hin|Hin]; [discriminate|].
  apply elem_of_app in Hin as [Hin|Hin].
  - destruct (decide (ctx_TenantId ctx = "")); [by apply elem_of_nil in Hin|].
    apply list_elem_of_singleton in Hin. discriminate.
  - apply list_elem_of_singleton in Hin. discriminate.
Qed.


Lemma malformed_handler_rejected_witness :
  ∃ (e : error) (logs logs' : list event),
    isTaxonomyError e = false ∧ isHTTPError e = false ∧
    forallb isLog logs = true ∧ forallb isLog logs' = true ∧
    (handleRequest sampleEnv parameterlessHandler (incoming anonymousRequest) =
       (Returns (Some e), incoming anonymousRequest) ∨
     handleRequest sampleEnv parameterlessHandler (incoming anonymousRequest) =
       (Panics (Err e), incoming anonymousRequest)) ∧
    echoRouterAdapter_request sampleEnv parameterlessHandler (incoming anonymousRequest) =
      (Returns (Some e), after (incoming anonymousRequest) logs []) ∧
    echoGroupRoute_request sampleEnv parameterlessHandler (incoming anonymousRequest) =
      (Returns (Some e), after (incoming anonymousRequest) logs' []) ∧
    (parameterlessHandler ≠ NilHandler →
     handleRequest sampleEnv parameterlessHandler (incoming anonymousRequest) =
       (Returns (Some e), incoming anonymousRequest) ∧ logs = [] ∧ logs' = []).
Proof.
  apply (malformed_handler_rejected sampleEnv parameterlessHandler (incoming anonymousRequest)).
  reflexivity.
Defined.


(** A valid input reaches the handler: status 200 with the bound value. *)
Example valid_input_served :
  echoRouterAdapter_request sampleEnv echoingHandler (incoming orderRequest) =
    (Returns None,
     after (incoming orderRequest)
       (dispatched defaultCtx (Some (Object "OrderInput" [("name", Str "widget")])) TxCommit)
       [mkResponse 200 (Object "OrderInput" [("name", Str "widget")])]).
Proof. vm_compute. reflexivity. Qed.

(** ** Results of the handler *)

(** A payload with a nil error is served with status 200 by both routes,
    and the transaction is committed. *)
Lemma payload_served (env : Collaborators) (In : list rtype)
    (Call : Ctx → option any → outcome (list rvalue)) (c : Context) (ctx : Ctx)
    (input : option any) (r0 : rvalue) :
  routeContext env c = Some ctx →
  boundInput env In (request c) = Some input →
  Call ctx input = Returns [r0; NilValue] →
  echoRouterAdapter_request env (Func In Call) c =
    (Returns None,
     after c (dispatched ctx input TxCommit) [mkResponse StatusOK (Interface r0)]) ∧
  echoGroupRoute_request env (Func In Call) c =
    (Returns None,
     after c (dispatched ctx input TxCommit) [mkResponse StatusOK (Interface r0)]).
Proof.
  intros Hctx Hbound Hcall. apply request_returns.
  by apply handleRequest_payload.
Qed.

(** An error the handler returns leaves both routes as it is: no
    response is written and the error mapper does not run; for an error
    of the taxonomy the transport then answers with its default, status
    500. *)
Lemma handler_error_returned (env : Collaborators) (In : list rtype)
    (Call : Ctx → option any → outcome (list rvalue)) (c : Context) (ctx : Ctx)
    (input : option any) (r0 : rvalue) (e : error) :
  routeContext env c = Some ctx →
  boundInput env In (request c) = Some input →
  Call ctx input = Returns [r0; NonNil (Err e)] →
  responses c = [] →
  isHTTPError e = false →
  echoRouterAdapter_request env (Func In Call) c =
    (Returns (Some e), after c (dispatched ctx input TxRollback) []) ∧
  echoGroupRoute_request env (Func In Call) c =
    (Returns (Some e), after c (dispatched ctx input TxRollback) []) ∧
  echo_ServeHTTP env (echoRouterAdapter_request env (Func In Call)) c =
    (Returns tt,
     after c (dispatched ctx input TxRollback)
       [mkResponse StatusInternalServerError (echo_Map_message "Internal Server Error")]).
Proof.
  intros Hctx Hbound Hcall Hempty Hhttp.
  destruct (request_returns env (Func In Call) c _ _
              (handleRequest_error env In Call c ctx input r0 e Hctx Hbound Hcall))
    as [Hr Hg].
  split_and!; [exact Hr|exact Hg|].
  unfold echo_ServeHTTP. rewrite (bind_returns _ _ _ _ _ Hr).
  unfold echo_DefaultHTTPErrorHandler. simpl. rewrite app_nil_r, Hempty.
  destruct e; try discriminate;
    unfold mbind, M_bind, mret, M_ret; by rewrite c_JSON_run, after_after, app_nil_r.
Qed.

(** C2, on the code: a handler that returns a nil payload and a
    functional error.  Both routes return the error as it is, without a
    response; the transport answers with status 500, where the error
    mapper, had it run, would have written status 400 with the mapped
    body. *)
Theorem handler_error_not_mapped :
  echoRouterAdapter_request sampleEnv rejectingHandler (incoming anonymousRequest) =
    (Returns (Some rejection),
     after (incoming anonymousRequest) (dispatched defaultCtx None TxRollback) []) ∧
  echoGroupRoute_request sampleEnv rejectingHandler (incoming anonymousRequest) =
    (Returns (Some rejection),
     after (incoming anonymousRequest) (dispatched defaultCtx None TxRollback) []) ∧
  echo_ServeHTTP sampleEnv (echoRouterAdapter_request sampleEnv rejectingHandler)
      (incoming anonymousRequest) =
    (Returns tt,
     after (incoming anonymousRequest) (dispatched defaultCtx None TxRollback)
       [mkResponse 500 (echo_Map_message "Internal Server Error")]) ∧
  mapHttpResponse rejection
      (after (incoming anonymousRequest) (dispatched defaultCtx None TxRollback) []) =
    (Returns None,
     after (incoming anonymousRequest)
       (dispatched defaultCtx None TxRollback ++ [LogError (Err rejection)])%list
       [mkResponse 400 (micro_ErrorResponse "order.invalid" "invalid order" Nil)]).
Proof. split_and!; vm_compute; reflexivity. Qed.

(** ** Panics *)

(** C7, amended: a panic of the handler whose value is an error is
    recovered by both routes, after the rollback of the transaction, and
    the error goes through the error mapper; a handler that panics with
    a technical error is answered with status 500 and the mapped
    body. *)
Theorem handler_panic_mapped (env : Collaborators) (In : list rtype)
    (Call : Ctx → option any → outcome (list rvalue)) (c : Context) (ctx : Ctx)
    (input : option any) (e : error) :
  routeContext env c = Some ctx →
  boundInput env In (request c) = Some input →
  Call ctx input = Panics (Err e) →
  echoRouterAdapter_request env (Func In Call) c =
    mapHttpResponse e (after c (dispatched ctx input TxRollback) []) ∧
  echoGroupRoute_request env (Func In Call) c =
    mapHttpResponse e
      (after c (dispatched ctx input TxRollback ++ [LogError (Err e)])%list []) ∧
  (∀ kind message details, e = TechnicalError kind message details →
     echoRouterAdapter_request env (Func In Call) c =
       (Returns None,
        after c (dispatched ctx input TxRollback ++ [LogError (Err e)])%list
          [mkResponse StatusInternalServerError (micro_ErrorResponse kind message details)]) ∧
     echoGroupRoute_request env (Func In Call) c =
       (Returns None,
        after c (dispatched ctx input TxRollback ++
                 [LogError (Err e); LogError (Err e)])%list
          [mkResponse StatusInternalServerError (micro_ErrorResponse kind message details)])).
Proof.
  intros Hctx Hbound Hcall.
  destruct (request_recovers env (Func In Call) c _ e
              (handleRequest_panics env In Call c ctx input _ Hctx Hbound Hcall))
    as [Hr Hg].
  rewrite after_after, app_nil_r in Hg.
  split_and!; [exact Hr|exact Hg|].
  intros kind message details ->. rewrite Hr, Hg.
  rewrite !mapHttpResponse_Technical, !after_after, <- !app_assoc.
  split; reflexivity.
Qed.

Lemma handler_panic_mapped_witness :
  echoRouterAdapter_request sampleEnv (panickingHandler (Err outage))
      (incoming anonymousRequest) =
    (Returns None,
     after (incoming anonymousRequest)
       (dispatched defaultCtx None TxRollback ++ [LogError (Err outage)])%list
       [mkResponse 500 (micro_ErrorResponse "db.down" "database unavailable" Nil)]).
Proof.
  exact (proj1 (proj2 (proj2
    (handler_panic_mapped sampleEnv [micro_Ctx_type] (λ _ _, Panics (Err outage))
       (incoming anonymousRequest) defaultCtx None outage eq_refl eq_refl eq_refl))
    "db.down" "database unavailable" Nil eq_refl)).
Defined.

(** C7, as stated, fails: a handler that panics with a string.  The
    deferred function of the route panics in its turn, the error mapper
    does not run and no response is written; the panic leaves the route
    for the recover middleware of the transport, which answers with
    status 500. *)
Lemma string_panic_not_mapped :
  isError (Str "boom") = false ∧
  echoRouterAdapter_request sampleEnv (panickingHandler (Str "boom"))
      (incoming anonymousRequest) =
    (Panics assertion_failed,
     after (incoming anonymousRequest) (dispatched defaultCtx None TxRollback) []) ∧
  echoGroupRoute_request sampleEnv (panickingHandler (Str "boom"))
      (incoming anonymousRequest) =
    (Panics assertion_failed,
     after (incoming anonymousRequest)
       (dispatched defaultCtx None TxRollback ++ [LogError (Str "boom")])%list []) ∧
  fst (echoRouterAdapter_request sampleEnv (panickingHandler (Str "boom"))
         (incoming anonymousRequest)) ≠
  fst (mapHttpResponse (ErrorString "boom")
         (after (incoming anonymousRequest) (dispatched defaultCtx None TxRollback) [])) ∧
  responses (snd (NewEchoAdapter sampleEnv sampleConfig
                    (echoRouterAdapter_request sampleEnv (panickingHandler (Str "boom")))
                    (incoming anonymousRequest))) =
    [mkResponse 500 (echo_Map_message "Internal Server Error")].
Proof. split_and!; try (vm_compute; reflexivity). vm_compute. discriminate. Qed.



(** * Further properties *)

(** ** Splitting at commas *)

Lemma HasPrefix_comma (ch : Ascii.ascii) (rest : string) :
  strings_HasPrefix (String ch rest) "," = Ascii.eqb (Ascii.ascii_of_nat 44) ch.
Proof.
  cbn [strings_HasPrefix]. destruct rest; cbn [strings_HasPrefix]; apply andb_true_r.
Qed.

Lemma split_from_not_nil (sep : string) (skip : nat) (cur s : string) :
  split_from sep skip cur s ≠ [].
Proof.
  revert skip cur. induction s as [|ch rest IH]; intros skip cur; cbn [split_from]; [done|].
  destruct skip; [|apply IH].
  destruct (strings_HasPrefix (String ch rest) sep); [done|apply IH].
Qed.

Lemma concat_cons_not_nil (sep x : string) (xs : list string) :
  xs ≠ [] → String.concat sep (x :: xs) = x +:+ sep +:+ String.concat sep xs.
Proof. destruct xs; [done|]. reflexivity. Qed.

Lemma string_app_assoc (a b c : string) : (a +:+ b) +:+ c = a +:+ (b +:+ c).
Proof.
  induction a as [|ch a IH]; [reflexivity|].
  change (String ch ((a +:+ b) +:+ c) = String ch (a +:+ (b +:+ c))). by f_equal.
Qed.

Lemma string_app_nil_r (a : string) : a +:+ "" = a.
Proof.
  induction a as [|ch a IH]; [reflexivity|].
  change (String ch (a +:+ "") = String ch a). by f_equal.
Qed.

Lemma split_from_comma_join (cur s : string) :
  String.concat "," (split_from "," 0 cur s) = cur +:+ s.
Proof.
  revert cur. induction s as [|ch rest IH]; intros cur.
  - simpl. by rewrite string_app_nil_r.
  - cbn [split_from]. rewrite HasPrefix_comma.
    destruct (Ascii.eqb (Ascii.ascii_of_nat 44) ch) eqn:Hch.
    + apply Ascii.eqb_eq in Hch. subst ch. simpl Nat.pred.
      rewrite concat_cons_not_nil by apply split_from_not_nil.
      rewrite IH. reflexivity.
    + rewrite IH, string_app_assoc. reflexivity.
Qed.

Lemma hasComma_app (a b : string) : hasComma (a +:+ b) = hasComma a || hasComma b.
Proof.
  induction a as [|ch a IH]; [reflexivity|].
  change (Ascii.eqb ch (Ascii.ascii_of_nat 44) || hasComma (a +:+ b) =
          Ascii.eqb ch (Ascii.ascii_of_nat 44) || hasComma a || hasComma b).
  by rewrite IH, orb_assoc.
Qed.

Lemma split_from_comma_pieces (cur s : string) :
  hasComma cur = false →
  Forall (λ piece, hasComma piece = false) (split_from "," 0 cur s).
Proof.
  revert cur. induction s as [|ch rest IH]; intros cur Hcur.
  - by constructor.
  - cbn [split_from]. rewrite HasPrefix_comma.
    destruct (Ascii.eqb (Ascii.ascii_of_nat 44) ch) eqn:Hch.
    + constructor; [done|]. by apply IH.
    + apply IH. rewrite hasComma_app, Hcur. simpl.
      rewrite Ascii.eqb_sym, Hch. reflexivity.
Qed.

Lemma split_from_comma_whole (cur s : string) :
  hasComma s = false → split_from "," 0 cur s = [cur +:+ s].
Proof.
  revert cur. induction s as [|ch rest IH]; intros cur Hs.
  - simpl. by rewrite string_app_nil_r.
  - cbn [split_from]. rewrite HasPrefix_comma. simpl in Hs.
    apply orb_false_iff in Hs as [Hch Hrest].
    rewrite Ascii.eqb_sym, Hch, IH, string_app_assoc by done. reflexivity.
Qed.

(** X1: the pieces [strings.Split] cuts a claim into at the commas are
    never an empty list, none of them holds a comma, and joined by
    commas they give the claim back; a claim without a comma is its only
    piece, the empty claim included. *)
Theorem Split_comma_pieces (s : string) :
  strings_Split s "," ≠ [] ∧
  Forall (λ piece, hasComma piece = false) (strings_Split s ",") ∧
  String.concat "," (strings_Split s ",") = s ∧
  (hasComma s = false → strings_Split s "," = [s]).
Proof.
  unfold strings_Split. split_and!.
  - apply split_from_not_nil.
  - by apply split_from_comma_pieces.
  - apply split_from_comma_join.
  - apply split_from_comma_whole.
Qed.

(** ** The field names of the validator *)

Lemma splitn_once (cur s : string) :
  ∃ (piece : string) (rest : list string),
    splitn_from "," 1 0 cur s = (cur +:+ piece) :: rest ∧
    hasComma piece = false ∧
    (hasComma s = false → piece = s) ∧
    (∀ a b, s = a +:+ "," +:+ b → hasComma a = false → piece = a).
Proof.
  revert cur. induction s as [|ch s IH]; intros cur.
  - exists "", []. simpl. rewrite string_app_nil_r. split_and!; try done.
    intros [|? a] b; simpl; discriminate.
  - cbn [splitn_from]. rewrite HasPrefix_comma.
    destruct (Ascii.eqb (Ascii.ascii_of_nat 44) ch) eqn:Hch.
    + exists "", (splitn_from "," 0 0 "" s).
      rewrite string_app_nil_r. split_and!; try done.
      * simpl. rewrite Ascii.eqb_sym, Hch. discriminate.
      * intros [|ch' a] b Heq Ha; [done|]. simpl in Heq, Ha.
        injection Heq as <- _. apply orb_false_iff in Ha as [Ha _].
        rewrite Ascii.eqb_sym, Hch in Ha. discriminate.
    + destruct (IH (cur +:+ String ch "")) as (piece & rest & Hrun & Hpiece & Hwhole & Hcut).
      exists (String ch piece), rest. split_and!.
      * rewrite Hrun, string_app_assoc. reflexivity.
      * simpl. by rewrite Ascii.eqb_sym, Hch, Hpiece.
      * simpl. intros Hs. apply orb_false_iff in Hs as [_ Hs]. by rewrite Hwhole.
      * intros [|ch' a] b Heq Ha; simpl in Heq, Ha.
        -- injection Heq as -> _. apply Ascii.eqb_neq in Hch. done.
        -- injection Heq as <- ->. apply orb_false_iff in Ha as [_ Ha].
           by rewrite (Hcut a b).
Qed.

(** X2: the tag name function of [init] never panics; the name it gives
    for a [json] tag is the part of the tag in front of its first comma
    (the whole tag when it has none), and nothing for the name [-]: it
    never holds a comma and is never [-]. *)
Theorem TagNameFunc_name (jsonTag : string) :
  ∃ name : string,
    init_TagNameFunc jsonTag = Returns name ∧
    hasComma name = false ∧
    name ≠ "-" ∧
    (hasComma jsonTag = false → name = if decide (jsonTag = "-") then "" else jsonTag) ∧
    (∀ a options, jsonTag = a +:+ "," +:+ options → hasComma a = false →
       name = if decide (a = "-") then "" else a).
Proof.
  unfold init_TagNameFunc, strings_SplitN.
  destruct (decide (2 = 0)) as [|_]; [done|]. destruct (decide (2 < 0)) as [|_]; [lia|].
  change (Z.to_nat (2 - 1)) with 1%nat.
  destruct (splitn_once "" jsonTag) as (piece & rest & -> & Hpiece & Hwhole & Hcut).
  exists (if decide (piece = "-") then "" else piece).
  split_and!.
  - change ("" +:+ piece) with piece. by destruct (decide (piece = "-")).
  - by destruct (decide (piece = "-")).
  - by destruct (decide (piece = "-")).
  - intros Hs. by rewrite <- (Hwhole Hs).
  - intros a options Heq Ha. by rewrite <- (Hcut a options Heq Ha).
Qed.

Example TagNameFunc_omitempty : init_TagNameFunc "name,omitempty" = Returns "name".
Proof. reflexivity. Qed.

Example TagNameFunc_ignored : init_TagNameFunc "-" = Returns "".
Proof. reflexivity. Qed.

Example TagNameFunc_untagged : init_TagNameFunc "" = Returns "".
Proof. reflexivity. Qed.

(** ** Field errors and binding failures *)

(** X3: the map [Bind] builds from the validation errors holds, for
    every field, the tag of the last error reported for that field, and
    no entry for a field without an error: when a field name is reported
    more than once, the later report replaces the earlier one. *)
Theorem fieldErrors_last_wins (fes : list FieldError) (field : string) :
  fieldErrors fes !! field = Tag <$> last (filter (λ fe, Field fe = field) fes) ∧
  (fieldErrors fes !! field = None ↔ ∀ fe, fe ∈ fes → Field fe ≠ field).
Proof.
  assert (Hlookup : ∀ l,
            fieldErrors l !! field = Tag <$> last (filter (λ fe, Field fe = field) l)).
  { induction l as [|x l IH] using rev_ind; [done|].
    rewrite fieldErrors_snoc, filter_app.
    destruct (decide (Field x = field)) as [Heq|Hne].
    - rewrite filter_cons_True by done. rewrite filter_nil, last_snoc.
      rewrite <- Heq. apply lookup_insert_eq.
    - rewrite filter_cons_False by done. rewrite filter_nil, app_nil_r.
      by rewrite lookup_insert_ne. }
  split; [apply Hlookup|].
  rewrite Hlookup. split.
  - intros Hnone fe Hin Heq.
    assert (Hfe : fe ∈ filter (λ fe, Field fe = field) fes)
      by (apply list_elem_of_filter; done).
    destruct (filter (λ fe, Field fe = field) fes) as [|y l] eqn:Hf using rev_ind;
      [by apply elem_of_nil in Hfe|].
    rewrite last_snoc in Hnone. discriminate.
  - intros Hnone.
    destruct (filter (λ fe, Field fe = field) fes) as [|y l] eqn:Hf using rev_ind; [done|].
    assert (Hy : y ∈ filter (λ fe, Field fe = field) fes).
    { rewrite Hf. apply elem_of_app. right. by apply list_elem_of_singleton. }
    apply list_elem_of_filter in Hy as [Hy1 Hy2]. by destruct (Hnone y Hy2).
Qed.

Example fieldErrors_duplicate :
  fieldErrors [mkFieldError "name" "required"; mkFieldError "age" "gte";
               mkFieldError "name" "min"] =
    <["name" := "min"]> (<["age" := "gte"]> ∅).
Proof. vm_compute. reflexivity. Qed.

Lemma Bind_unbound (env : Collaborators) (input : any) (err : error) (c : Context) :
  binder_Bind env (request c) input = BindError err ∨
  (∃ v1, binder_Bind env (request c) input = Bound v1 ∧
         binder_BindHeaders env (request c) v1 = BindError err) →
  ∃ v, Bind env input c =
    (Returns (v, Some (HTTPError StatusBadRequest
                         (schema_ErrorResponse "input.bindind" "invalid_request_payload"
                            (Str (error_Error env err))))), c).
Proof.
  intros [H1 | (v1 & H1 & H2)]; unfold Bind, c_Request, mbind, M_bind.
  - exists input. by rewrite H1.
  - exists v1. by rewrite H1, H2.
Qed.

(** X4: when the binder fails on the body, or on the headers after the
    body, of a request to a handler with an input parameter, the input
    is not validated and the handler is not invoked: the routes return
    an HTTP error of status 400 with the kind [input.bindind] and the
    text of the binder's error, the transaction is rolled back, and the
    transport answers with that status and body. *)
Theorem binding_failure_rejected (env : Collaborators) (T : rtype)
    (Call : Ctx → option any → outcome (list rvalue)) (c : Context) (ctx : Ctx)
    (err : error) :
  routeContext env c = Some ctx →
  responses c = [] →
  binder_Bind env (request c) (reflect_Zero env T) = BindError err ∨
  (∃ v1, binder_Bind env (request c) (reflect_Zero env T) = Bound v1 ∧
         binder_BindHeaders env (request c) v1 = BindError err) →
  let body := schema_ErrorResponse "input.bindind" "invalid_request_payload"
                (Str (error_Error env err)) in
  let events := (entering ctx ++ [LogError (Err (HTTPError StatusBadRequest body));
                                  TxRollback])%list in
  echoRouterAdapter_request env (Func [micro_Ctx_type; T] Call) c =
    (Returns (Some (HTTPError StatusBadRequest body)), after c events []) ∧
  echoGroupRoute_request env (Func [micro_Ctx_type; T] Call) c =
    (Returns (Some (HTTPError StatusBadRequest body)), after c events []) ∧
  echo_ServeHTTP env (echoRouterAdapter_request env (Func [micro_Ctx_type; T] Call)) c =
    (Returns tt, after c events [mkResponse StatusBadRequest body]) ∧
  (∀ x input, Invoked x input ∉ events).
Proof.
  intros Hctx Hempty Hfail. simpl.
  destruct (Bind_unbound env (reflect_Zero env T) err (after c (entering ctx) []) Hfail)
    as [v Hbind].
  assert (Hrun : handleRequest env (Func [micro_Ctx_type; T] Call) c =
    (Returns (Some (HTTPError StatusBadRequest
                      (schema_ErrorResponse "input.bindind" "invalid_request_payload"
                         (Str (error_Error env err))))),
     after c (entering ctx ++
              [LogError (Err (HTTPError StatusBadRequest
                                (schema_ErrorResponse "input.bindind"
                                   "invalid_request_payload"
                                   (Str (error_Error env err)))));
               TxRollback]) [])).
  { rewrite (handleRequest_enters env _ Call c ctx Hctx); [|reflexivity|by right].
    unfold unitOfWork. cbn [length lookup list_lookup].
    destruct (decide (2 = 2)%nat); [|done].
    rewrite (bind_returns _ _ _ _ _ Hbind).
    unfold log_Errorf. rewrite (bind_returns _ _ _ _ _ (emit_run _ _)).
    unfold mret, M_ret. by rewrite !after_after. }
  destruct (request_returns env _ c _ _ Hrun) as [Hr Hg].
  split_and!; [exact Hr|exact Hg| |].
  - unfold echo_ServeHTTP. rewrite (bind_returns _ _ _ _ _ Hr).
    unfold echo_DefaultHTTPErrorHandler.
    change (responses (after c _ [])) with (responses c ++ [])%list.
    rewrite app_nil_r, Hempty.
    unfold mbind, M_bind, mret, M_ret. by rewrite c_JSON_run, after_after, app_nil_r.
  - apply not_invoked_on_entry. intros x input Hin.
    apply elem_of_cons in Hin as [Hin|Hin]; [discriminate|].
    apply list_elem_of_singleton in Hin. discriminate.
Qed.

(** ** Reading the results of the handler *)

Lemma served_by_default (env : Collaborators) (route : M (option error)) (c c' : Context)
    (e : error) :
  route c = (Returns (Some e), c') →
  responses c' = [] →
  isHTTPError e = false →
  echo_ServeHTTP env route c =
    (Returns tt,
     after c' [] [mkResponse StatusInternalServerError
                    (echo_Map_message "Internal Server Error")]).
Proof.
  intros Hrun Hempty Hhttp. unfold echo_ServeHTTP.
  rewrite (bind_returns _ _ _ _ _ Hrun).
  unfold echo_DefaultHTTPErrorHandler. rewrite Hempty.
  destruct e; try discriminate;
    unfold mbind, M_bind, mret, M_ret; by rewrite c_JSON_run.
Qed.

(** X5: a handler with a single result is answered with status 200 and
    that result as the payload, and the transaction is committed,
    whatever the result is: an error returned as the only result of a
    handler is served as a payload and never treated as a failure. *)
Theorem single_result_served (env : Collaborators) (In : list rtype)
    (Call : Ctx → option any → outcome (list rvalue)) (c : Context) (ctx : Ctx)
    (input : option any) (r0 : rvalue) :
  routeContext env c = Some ctx →
  boundInput env In (request c) = Some input →
  Call ctx input = Returns [r0] →
  echoRouterAdapter_request env (Func In Call) c =
    (Returns None,
     after c (dispatched ctx input TxCommit) [mkResponse StatusOK (Interface r0)]) ∧
  echoGroupRoute_request env (Func In Call) c =
    (Returns None,
     after c (dispatched ctx input TxCommit) [mkResponse StatusOK (Interface r0)]) ∧
  (∀ e, r0 = NonNil (Err e) →
     echoRouterAdapter_request env (Func In Call) c =
       (Returns None, after c (dispatched ctx input TxCommit) [mkResponse StatusOK (Err e)])).
Proof.
  intros Hctx Hbound Hcall.
  assert (Hrun : handleRequest env (Func In Call) c =
    (Returns None,
     after c (dispatched ctx input TxCommit) [mkResponse StatusOK (Interface r0)])).
  { rewrite (handleRequest_invokes env In Call c ctx input Hctx Hbound).
    rewrite (invoke_returns _ _ _ _ _ _ Hcall).
    unfold respond. rewrite c_JSON_run, !after_after. reflexivity. }
  destruct (request_returns env _ c _ _ Hrun) as [Hr Hg].
  split_and!; [exact Hr|exact Hg|]. intros e ->. exact Hr.
Qed.

(** X6: a handler that returns no result, or more than two, has been
    invoked when the dispatcher finds out: the routes return the error
    [invalid handler return type] without a response, the transaction is
    rolled back, and the transport answers with status 500. *)
Theorem result_count_rejected (env : Collaborators) (In : list rtype)
    (Call : Ctx → option any → outcome (list rvalue)) (c : Context) (ctx : Ctx)
    (input : option any) (res : list rvalue) :
  routeContext env c = Some ctx →
  boundInput env In (request c) = Some input →
  responses c = [] →
  Call ctx input = Returns res →
  (length res = 0 ∨ 2 < length res)%nat →
  echoRouterAdapter_request env (Func In Call) c =
    (Returns (Some (ErrorString "invalid handler return type")),
     after c (dispatched ctx input TxRollback) []) ∧
  echoGroupRoute_request env (Func In Call) c =
    (Returns (Some (ErrorString "invalid handler return type")),
     after c (dispatched ctx input TxRollback) []) ∧
  echo_ServeHTTP env (echoRouterAdapter_request env (Func In Call)) c =
    (Returns tt,
     after c (dispatched ctx input TxRollback)
       [mkResponse StatusInternalServerError (echo_Map_message "Internal Server Error")]).
Proof.
  intros Hctx Hbound Hempty Hcall Hlen.
  assert (Hrun : handleRequest env (Func In Call) c =
    (Returns (Some (ErrorString "invalid handler return type")),
     after c (dispatched ctx input TxRollback) [])).
  { rewrite (handleRequest_invokes env In Call c ctx input Hctx Hbound).
    rewrite (invoke_returns _ _ _ _ _ _ Hcall).
    destruct res as [|r0 [|r1 [|r2 res]]]; simpl in Hlen; try lia;
      unfold mret, M_ret, fmt_Errorf; by rewrite !after_after. }
  destruct (request_returns env _ c _ _ Hrun) as [Hr Hg].
  split_and!; [exact Hr|exact Hg|].
  rewrite (served_by_default env _ c _ _ Hr);
    [|by unfold after; simpl; rewrite app_nil_r|done].
  by rewrite after_after, app_nil_r.
Qed.

(** X7: when the second result of a handler is neither nil nor an
    error, reading it panics (in [IsNil] for a kind that has no nil, in
    the type assertion otherwise); the transaction is rolled back, the
    routes recover the panic and return its run-time error unmapped,
    without a response, whatever the first result was. *)
Theorem second_result_not_an_error (env : Collaborators) (In : list rtype)
    (Call : Ctx → option any → outcome (list rvalue)) (c : Context) (ctx : Ctx)
    (input : option any) (r0 r1 : rvalue) :
  routeContext env c = Some ctx →
  boundInput env In (request c) = Some input →
  Call ctx input = Returns [r0; r1] →
  (∃ v, r1 = NotNilable v) ∨ (∃ v, r1 = NonNil v ∧ isError v = false) →
  ∃ msg : string,
    handleRequest env (Func In Call) c =
      (Panics (Err (RuntimeError msg)), after c (dispatched ctx input TxRollback) []) ∧
    echoRouterAdapter_request env (Func In Call) c =
      (Returns (Some (RuntimeError msg)),
       after c (dispatched ctx input TxRollback ++ [LogError (Err (RuntimeError msg))])%list
         []) ∧
    echoGroupRoute_request env (Func In Call) c =
      (Returns (Some (RuntimeError msg)),
       after c (dispatched ctx input TxRollback ++
                [LogError (Err (RuntimeError msg)); LogError (Err (RuntimeError msg))])%list
         []).
Proof.
  intros Hctx Hbound Hcall Hr1.
  assert (Hrun : ∃ msg, handleRequest env (Func In Call) c =
            (Panics (Err (RuntimeError msg)), after c (dispatched ctx input TxRollback) [])).
  { rewrite (handleRequest_invokes env In Call c ctx input Hctx Hbound).
    rewrite (invoke_returns _ _ _ _ _ _ Hcall).
    destruct Hr1 as [[v ->] | (v & -> & Hv)].
    - eexists. unfold IsNil, panic, mbind, M_bind. rewrite !after_after. reflexivity.
    - eexists. unfold IsNil, Interface, assert_error, panic, mbind, M_bind, mret, M_ret.
      destruct v; try discriminate; rewrite !after_after; reflexivity. }
  destruct Hrun as [msg Hrun]. exists msg.
  destruct (request_recovers env _ c _ _ Hrun) as [Hr Hg].
  split_and!; [exact Hrun| |].
  - rewrite Hr. unfold mapHttpResponse, log_Errorf.
    rewrite (bind_returns _ _ _ _ _ (emit_run _ _)).
    unfold mret, M_ret. by rewrite after_after.
  - rewrite Hg. unfold mapHttpResponse, log_Errorf.
    rewrite (bind_returns _ _ _ _ _ (emit_run _ _)).
    unfold mret, M_ret. by rewrite !after_after.
Qed.

(** ** What every dispatch keeps *)

Lemma createRouteContext_panics (env : Collaborators) (c : Context) :
  routeContext env c = None →
  createRouteContext env c = (Panics assertion_failed, c).
Proof.
  unfold routeContext, createRouteContext, c_Get, mbind, M_bind.
  destruct (store c !! AuthKey env) as [[a|t|v]|]; intros H; try discriminate; reflexivity.
Qed.

Lemma Bind_cases (env : Collaborators) (input : any) (c : Context) :
  (∃ v, Bind env input c = (Returns (v, None), c)) ∨
  (∃ v code message, Bind env input c = (Returns (v, Some (HTTPError code message)), c)) ∨
  Bind env input c = (Panics assertion_failed, c).
Proof.
  unfold Bind, c_Request, mbind, M_bind.
  destruct (binder_Bind env (request c) input) as [v1|e1]; [|right; left; by eexists _, _, _].
  destruct (binder_BindHeaders env (request c) v1) as [v2|e2];
    [|right; left; by eexists _, _, _].
  destruct (validate_Struct env v2) as [|fes|].
  - left. by eexists.
  - right; left. by eexists _, _, _.
  - right; right. reflexivity.
Qed.

Lemma invoke_cases (Call : Ctx → option any → outcome (list rvalue)) (tx : Ctx)
    (input : option any) (c : Context) :
  ∃ r rs, invoke Call None tx input c = (r, after c [Invoked tx input] rs) ∧
          workOutcome Call tx r rs.
Proof.
  destruct (Call tx input) as [res|v] eqn:Hcall.
  - rewrite (invoke_returns _ _ _ _ _ _ Hcall).
    assert (Hserved : ∀ v, ∃ r rs,
              respond None v (after c [Invoked tx input] []) =
                (r, after c [Invoked tx input] rs) ∧ workOutcome Call tx r rs).
    { intros v. exists (Returns None), [mkResponse StatusOK v]. split.
      - unfold respond. by rewrite c_JSON_run, after_after.
      - split; [left; split; [done|by eexists]|]. intros ? [=]. }
    assert (Hfailed : ∀ e, workOutcome Call tx (Returns (Some e)) []).
    { intros e. split; [right; split; [discriminate|done]|]. intros ? [=]. }
    assert (Hpanicked : ∀ e, workOutcome Call tx (Panics (Err e)) []).
    { intros e. split; [right; split; [discriminate|done]|].
      intros ? [= <-]. by left. }
    destruct res as [|r0 [|r1 [|r2 res]]].
    + eexists _, []. split; [reflexivity|apply Hfailed].
    + apply Hserved.
    + destruct r1 as [|v|v].
      * apply Hserved.
      * destruct v; try (eexists _, []; split; [reflexivity|apply Hpanicked]).
        eexists _, []. split; [reflexivity|apply Hfailed].
      * eexists _, []. split; [reflexivity|apply Hpanicked].
    + eexists _, []. split; [reflexivity|apply Hfailed].
  - rewrite (invoke_panics _ _ _ _ _ _ Hcall). exists (Panics v), []. split; [done|].
    split; [right; split; [discriminate|done]|]. intros ? [= <-]. right. by exists input.
Qed.

Lemma unitOfWork_cases (env : Collaborators) (In : list rtype)
    (Call : Ctx → option any → outcome (list rvalue)) (tx : Ctx) (c : Context) :
  ∃ r evs rs,
    unitOfWork env In Call tx c = (r, after c evs rs) ∧
    workEvents tx r evs ∧
    workOutcome Call tx r rs.
Proof.
  assert (Hinvoke : ∀ input, ∃ r evs rs,
            invoke Call None tx input c = (r, after c evs rs) ∧
            workEvents tx r evs ∧ workOutcome Call tx r rs).
  { intros input. destruct (invoke_cases Call tx input c) as (r & rs & Hrun & Hout).
    exists r, [Invoked tx input], rs. split; [done|]. split; [|done]. left. by exists input. }
  unfold unitOfWork. destruct (decide (length In = 2%nat)); [|apply Hinvoke].
  destruct (In !! 1%nat) as [T|].
  - destruct (Bind_cases env (reflect_Zero env T) c)
      as [[v Hb] | [(v & code & message & Hb) | Hb]].
    + rewrite (bind_returns _ _ _ _ _ Hb). apply Hinvoke.
    + rewrite (bind_returns _ _ _ _ _ Hb). unfold log_Errorf.
      rewrite (bind_returns _ _ _ _ _ (emit_run _ _)).
      eexists _, _, []. split; [reflexivity|].
      split; [right; split; [discriminate|right; by eexists]|].
      split; [right; split; [discriminate|done]|]. intros ? [=].
    + rewrite (bind_panics _ _ _ _ _ Hb). exists (Panics assertion_failed), [], [].
      rewrite after_nil. split; [done|].
      split; [right; split; [discriminate|by left]|].
      split; [right; split; [discriminate|done]|]. intros ? [= <-]. by left.
  - exists (Panics index_out_of_range), [], []. rewrite after_nil.
    split; [done|]. split; [right; split; [discriminate|by left]|].
    split; [right; split; [discriminate|done]|]. intros ? [= <-]. by left.
Qed.

(** The outcomes of [handleRequest] on any handler and exchange. *)
Lemma handleRequest_cases (env : Collaborators) (handler : Handler) (c : Context) :
  ∃ r evs rs,
    handleRequest env handler c = (r, after c evs rs) ∧
    ((evs = [] ∧ rs = [] ∧ r ≠ Returns None ∧
      ∀ v, r = Panics v → isError v = true) ∨
     (∃ In Call ctx mid last,
        handler = Func In Call ∧ routeContext env c = Some ctx ∧
        evs = (entering ctx ++ mid ++ [last])%list ∧
        workEvents ctx r mid ∧
        (last = TxCommit ∧ r = Returns None ∨ last = TxRollback ∧ r ≠ Returns None) ∧
        workOutcome Call ctx r rs)).
Proof.
  assert (Hrejected : ∀ r, r ≠ Returns None → (∀ v, r = Panics v → isError v = true) →
            handleRequest env handler c = (r, c) →
            ∃ r evs rs,
              handleRequest env handler c = (r, after c evs rs) ∧
              ((evs = [] ∧ rs = [] ∧ r ≠ Returns None ∧
                ∀ v, r = Panics v → isError v = true) ∨
               (∃ In Call ctx mid last,
                  handler = Func In Call ∧ routeContext env c = Some ctx ∧
                  evs = (entering ctx ++ mid ++ [last])%list ∧
                  workEvents ctx r mid ∧
                  (last = TxCommit ∧ r = Returns None ∨
                   last = TxRollback ∧ r ≠ Returns None) ∧
                  workOutcome Call ctx r rs))).
  { intros r Hr Hv Hrun. exists r, [], []. rewrite after_nil. split; [done|]. by left. }
  destruct handler as [|v|In Call].
  - apply (Hrejected (Panics nil_dereference)); [discriminate| |reflexivity].
    by intros ? [= <-].
  - eapply (Hrejected (Returns (Some _))); [discriminate|intros ? [=]|reflexivity].
  - destruct (decide (length In = 0%nat)) as [Hzero|Hnz].
    { eapply (Hrejected (Returns (Some _))); [discriminate|intros ? [=]|].
      unfold handleRequest.
      destruct (decide (length In = 0%nat)); [reflexivity|contradiction]. }
    destruct (decide (2 < length In)%nat) as [Hmany|Hfew].
    { eapply (Hrejected (Returns (Some _))); [discriminate|intros ? [=]|].
      unfold handleRequest. destruct (decide (length In = 0%nat)); [contradiction|].
      destruct (decide (2 < length In)%nat); [reflexivity|contradiction]. }
    destruct In as [|t rest]; [done|].
    destruct (decide (t ≠ micro_Ctx_type)) as [Hother|Hctx].
    { eapply (Hrejected (Returns (Some _))); [discriminate|intros ? [=]|].
      unfold handleRequest. destruct (decide (length (t :: rest) = 0%nat)); [contradiction|].
      destruct (decide (2 < length (t :: rest))%nat); [contradiction|].
      cbn [lookup list_lookup].
      destruct (decide (t ≠ micro_Ctx_type)); [reflexivity|contradiction]. }
    assert (t = micro_Ctx_type) as -> by (by destruct (decide (t = micro_Ctx_type))).
    destruct (routeContext env c) as [ctx|] eqn:Hroute.
    + rewrite (handleRequest_enters env _ Call c ctx Hroute); [|reflexivity|simpl in *; lia].
      destruct (unitOfWork_cases env (micro_Ctx_type :: rest) Call ctx
                  (after c (entering ctx) [])) as (r & mid & rs & -> & Hmid & Hout).
      destruct r as [[e|]|v].
      * exists (Returns (Some e)), (entering ctx ++ mid ++ [TxRollback])%list, rs.
        rewrite !after_after, ?app_nil_r, <- ?app_assoc. split; [reflexivity|]. right.
        exists (micro_Ctx_type :: rest), Call, ctx, mid, TxRollback.
        split_and!; try done. by right.
      * exists (Returns None), (entering ctx ++ mid ++ [TxCommit])%list, rs.
        rewrite !after_after, ?app_nil_r, <- ?app_assoc. split; [reflexivity|]. right.
        exists (micro_Ctx_type :: rest), Call, ctx, mid, TxCommit.
        split_and!; try done. by left.
      * exists (Panics v), (entering ctx ++ mid ++ [TxRollback])%list, rs.
        rewrite !after_after, ?app_nil_r, <- ?app_assoc. split; [reflexivity|]. right.
        exists (micro_Ctx_type :: rest), Call, ctx, mid, TxRollback.
        split_and!; try done. by right.
    + apply (Hrejected (Panics assertion_failed)); [discriminate|by intros ? [= <-]|].
      unfold handleRequest. destruct (decide (length (micro_Ctx_type :: rest) = 0%nat)); [done|].
      destruct (decide (2 < length (micro_Ctx_type :: rest))%nat); [done|].
      cbn [lookup list_lookup].
      destruct (decide (micro_Ctx_type ≠ micro_Ctx_type)); [done|].
      by rewrite (bind_panics _ _ _ _ _ (createRouteContext_panics env c Hroute)).
Qed.

(** X8: whatever the handler and the exchange, [handleRequest] either
    fails before it touches the exchange, or builds the request context,
    begins one transaction and ends it exactly once, as the last thing
    it does.  It commits only after it has invoked the handler, written
    one response of status 200 and is about to return nil; in every
    other case it rolls back, having written no response and invoked the
    handler at most once.  It never changes the request or the
    store. *)
Theorem dispatch_ends_transaction (env : Collaborators) (handler : Handler) (c : Context) :
  ∃ r evs rs,
    handleRequest env handler c = (r, after c evs rs) ∧
    ((evs = [] ∧ rs = [] ∧ r ≠ Returns None) ∨
     (∃ ctx,
        routeContext env c = Some ctx ∧
        ((∃ input v,
            evs = dispatched ctx input TxCommit ∧ r = Returns None ∧
            rs = [mkResponse StatusOK v]) ∨
         (∃ mid,
            evs = (entering ctx ++ mid ++ [TxRollback])%list ∧ r ≠ Returns None ∧
            rs = [] ∧
            (mid = [] ∨ (∃ v, mid = [LogError v]) ∨ ∃ input, mid = [Invoked ctx input]))))).
Proof.
  destruct (handleRequest_cases env handler c) as (r & evs & rs & Hrun & Hcases).
  exists r, evs, rs. split; [exact Hrun|].
  destruct Hcases as [(-> & -> & Hr & _) | (In & Call & ctx & mid & last & _ & Hctx & -> &
                                            Hmid & Hlast & [Hrs _])].
  - by left.
  - right. exists ctx. split; [done|].
    destruct Hlast as [[-> ->] | [-> Hr]].
    + left. destruct Hmid as [[input ->] | [Hne _]]; [|by destruct Hne].
      destruct Hrs as [[_ [v ->]] | [Hne _]]; [|by destruct Hne].
      by exists input, v.
    + right. exists mid. split; [done|]. split; [done|].
      split; [destruct Hrs as [[-> _] | [_ ->]]; [by destruct Hr|done]|].
      destruct Hmid as [[input ->] | [_ [-> | [v ->]]]]; eauto.
Qed.

Lemma mapHttpResponse_returns (err : error) (c : Context) :
  ∃ r c', mapHttpResponse err c = (Returns r, c').
Proof.
  unfold mapHttpResponse, log_Errorf. rewrite (bind_returns _ _ _ _ _ (emit_run _ c)).
  destruct err; by eexists _, _.
Qed.

(** X9: the routes turn every panic of [handleRequest] that carries an
    error into a returned result; so a route whose handler panics, if it
    panics at all, only with error values never panics itself, whatever
    the shape of the handler, the input and the store. *)
Theorem routes_return (env : Collaborators) (handler : Handler) (c : Context) :
  (∀ In Call ctx input v,
     handler = Func In Call → Call ctx input = Panics v → isError v = true) →
  (∃ r c', echoRouterAdapter_request env handler c = (Returns r, c')) ∧
  (∃ r c', echoGroupRoute_request env handler c = (Returns r, c')).
Proof.
  intros Hhandler.
  destruct (handleRequest_cases env handler c) as (r & evs & rs & Hrun & Hcases).
  destruct r as [r|v].
  - destruct (request_returns env handler c _ r Hrun) as [Hr Hg]. split; by eexists _, _.
  - assert (Hv : isError v = true).
    { destruct Hcases as [(_ & _ & _ & Hv) | (In & Call & ctx & mid & last & -> & _ & _ &
                                              _ & _ & [_ Hv])].
      - by apply Hv.
      - destruct (Hv v eq_refl) as [?|[input Hcall]]; [done|].
        by apply (Hhandler In Call ctx input). }
    destruct v; try discriminate.
    destruct (request_recovers env handler c _ e Hrun) as [Hr Hg].
    rewrite Hr, Hg. split; apply mapHttpResponse_returns.
Qed.

Lemma mapper_passes (err : error) (c : Context) :
  isTaxonomyError err = false →
  isHTTPError err = false →
  mapHttpResponse err c = (Returns (Some err), after c [LogError (Err err)] []).
Proof.
  intros Ht Hh. unfold mapHttpResponse, log_Errorf.
  rewrite (bind_returns _ _ _ _ _ (emit_run _ c)). by destruct err.
Qed.

(** X10: an error handed to the error mapper is answered exactly once
    when no response has been written before: by the mapper itself for
    the six taxonomy kinds (the documented status) and for an
    [*echo.HTTPError] (its own code and message), after which the
    transport has nothing left to do, and by the transport with status
    500 for every other error. *)
Theorem error_answered_once (env : Collaborators) (err : error) (c : Context) :
  responses c = [] →
  ∃ code body,
    echo_ServeHTTP env (mapHttpResponse err) c =
      (Returns tt, after c [LogError (Err err)] [mkResponse code body]) ∧
    (∀ t kind message details, err = taxonomyError t kind message details →
       code = documentedStatus t ∧ body = micro_ErrorResponse kind message details) ∧
    (∀ code' message, err = HTTPError code' message → code = code' ∧ body = message) ∧
    (isTaxonomyError err = false → isHTTPError err = false →
       code = StatusInternalServerError).
Proof.
  intros Hempty.
  assert (Hmapped : ∀ code body,
            mapHttpResponse err c =
              (Returns None, after c [LogError (Err err)] [mkResponse code body]) →
            echo_ServeHTTP env (mapHttpResponse err) c =
              (Returns tt, after c [LogError (Err err)] [mkResponse code body])).
  { intros code body Hrun. unfold echo_ServeHTTP. by rewrite (bind_returns _ _ _ _ _ Hrun). }
  destruct err as [k m d|k m d|k m d|k m d|k m d|k m d|code' message|s|s|n s].
  1-6: eexists _, _; split; [by apply Hmapped|];
       split; [intros [] ? ? ? [=]; by subst|];
       split; [intros ? ? [=]|intros [=]].
  1: { exists code', message. split; [by apply Hmapped|].
       split; [intros [] ? ? ? [=]|]. split; [by intros ? ? [= <- <-]|intros _ [=]]. }
  all: match goal with
       | |- context [mapHttpResponse ?e] =>
           pose proof (served_by_default env _ c _ _ (mapper_passes e c eq_refl eq_refl))
             as Hserved
       end;
       eexists _, _; split;
       [ rewrite Hserved;
           [by rewrite after_after, app_nil_r
           |by unfold after; simpl; rewrite app_nil_r
           |done]
       | split; [intros [] ? ? ? [=]|]; split; [intros ? ? [=]|done] ].
Qed.

(** ** The token middleware *)

Lemma HasPrefix_empty (prefix : string) :
  prefix ≠ "" → strings_HasPrefix "" prefix = false.
Proof. by destruct prefix. Qed.

Lemma Skipper_run (c : Context) :
  Skipper c =
    (Returns (negb (strings_HasPrefix (Header_Get (Header (request c)) "Authorization")
                      "Bearer ")), c).
Proof.
  unfold Skipper, c_Request, mbind, M_bind.
  destruct (bool_decide (Header_Get (Header (request c)) "Authorization" = "")) eqn:Hempty.
  - apply bool_decide_eq_true in Hempty. rewrite Hempty. reflexivity.
  - cbn [orb]. by destruct (strings_HasPrefix _ _).
Qed.

Lemma tenantMiddleware_run (env : Collaborators) (next : M (option error)) (c : Context) :
  tenantMiddleware env next c =
    next (storing c (AuthKey env) (AuthValue (anonymousOf env (request c)))).
Proof. reflexivity. Qed.

Lemma middlewares_not_bearer (env : Collaborators) (config : RouterConfig)
    (route : M (option error)) (c : Context) :
  strings_HasPrefix (Header_Get (Header (request c)) "Authorization") "Bearer " = false →
  middlewares env config route c =
    echo_Recover env route (storing c (AuthKey env) (AuthValue (anonymousOf env (request c)))).
Proof.
  intros Hscheme. unfold middlewares. rewrite tenantMiddleware_run.
  destruct (TokenProvider config) as [key|]; [|reflexivity].
  unfold echo_Recover, recovering, echojwt_WithConfig.
  rewrite (bind_returns _ _ _ _ _ (Skipper_run _)).
  change (request (storing c _ _)) with (request c). by rewrite Hscheme.
Qed.

(** X11: a request whose [Authorization] header does not start with
    [Bearer ] (no header, other credentials, another spelling of the
    scheme) is not verified at all, even when a token provider is
    configured: the route runs on the unauthenticated authentication of
    the first middleware, with the tenant of [X-TenantId] or the
    default tenant. *)
Theorem not_bearer_is_anonymous (env : Collaborators) (config : RouterConfig)
    (route : M (option error)) (c : Context) :
  strings_HasPrefix (Header_Get (Header (request c)) "Authorization") "Bearer " = false →
  middlewares env config route c =
    echo_Recover env route (storing c (AuthKey env) (AuthValue (anonymousOf env (request c)))).
Proof.
  intros Hscheme. unfold middlewares. rewrite tenantMiddleware_run.
  destruct (TokenProvider config) as [key|]; [|reflexivity].
  unfold echo_Recover, recovering, echojwt_WithConfig.
  rewrite (bind_returns _ _ _ _ _ (Skipper_run _)).
  change (request (storing c _ _)) with (request c). by rewrite Hscheme.
Qed.

(** X12: a request with a bearer token that the verifier refuses never
    reaches the route: the token middleware answers with status 401 and
    the text of the verifier's error, and the authentication stored for
    the exchange stays the unauthenticated one. *)
Theorem refused_token_unauthorized (env : Collaborators) (config : RouterConfig)
    (route : M (option error)) (c : Context) (key : string) (err : error) :
  TokenProvider config = Some key →
  strings_HasPrefix (Header_Get (Header (request c)) "Authorization") "Bearer " = true →
  jwt_Parse env key (request c) = inl err →
  middlewares env config route c =
    (Returns None,
     after (storing c (AuthKey env) (AuthValue (anonymousOf env (request c)))) []
       [mkResponse StatusUnauthorized (Str (error_Error env err))]) ∧
  NewEchoAdapter env config route c =
    (Returns tt,
     after (storing c (AuthKey env) (AuthValue (anonymousOf env (request c)))) []
       [mkResponse StatusUnauthorized (Str (error_Error env err))]).
Proof.
  intros Hkey Hscheme Hparse.
  assert (Hrun : middlewares env config route c =
    (Returns None,
     after (storing c (AuthKey env) (AuthValue (anonymousOf env (request c)))) []
       [mkResponse StatusUnauthorized (Str (error_Error env err))])).
  { unfold middlewares. rewrite tenantMiddleware_run, Hkey.
    unfold echo_Recover, recovering, echojwt_WithConfig.
    rewrite (bind_returns _ _ _ _ _ (Skipper_run _)).
    change (request (storing c _ _)) with (request c). rewrite Hscheme. cbn [negb].
    unfold c_Request, mbind, M_bind.
    change (request (storing c _ _)) with (request c). rewrite Hparse.
    unfold ErrorHandler. by rewrite c_JSON_run. }
  split; [exact Hrun|].
  unfold NewEchoAdapter, echo_ServeHTTP. by rewrite (bind_returns _ _ _ _ _ Hrun).
Qed.

Lemma SuccessHandler_run (env : Collaborators) (config : RouterConfig)
    (c : Context) (m : gmap string any) :
  store c !! AuthKey env = Some (TokenValue (mkToken (MapClaims m))) →
  SuccessHandler env config c =
    if consultedClaimsAreStrings m
    then (Returns tt, storing c (AuthKey env) (AuthValue (authenticationOf env config m)))
    else (Panics assertion_failed, c).
Proof.
  intros Hstore.
  unfold SuccessHandler, c_Get, mbind at 1, M_bind at 1. rewrite Hstore.
  cbn [token_Claims GetSubject GetIssuer].
  unfold consultedClaimsAreStrings, optionalClaimsAreStrings, stringOrAbsent,
    authenticationOf.
  unfold mbind, M_bind. rewrite claims_copied.
  rewrite claim_run.
  destruct (m !! "roles") as [[]|]; cbn [andb]; try reflexivity;
    (rewrite claim_run;
     destruct (m !! "role") as [[]|]; cbn [andb]; try reflexivity;
       (rewrite claim_run;
        destruct (m !! "permissions") as [[]|]; cbn [andb]; try reflexivity;
          (rewrite claim_run;
           destruct (m !! "name") as [[]|] eqn:Hname; cbn [andb]; try reflexivity;
             (rewrite claim_run;
              destruct (m !! "email") as [[]|] eqn:Hemail; cbn [andb]; try reflexivity;
                (destruct (m !! "phone") as [[]|]; cbn [andb]; try reflexivity;
                   [unfold parseString; rewrite Hname, Hemail; reflexivity|];
                 rewrite claim_run;
                 destruct (m !! "phone_number") as [[]|] eqn:Hphone; cbn [andb];
                   try reflexivity;
                   unfold parseString; rewrite Hname, Hemail, Hphone; reflexivity))))).
Qed.

(** X13: on verified map claims the success handler either stores the
    authentication of the claims or panics: it stores it when every
    claim it asserts to be a string (roles, role, permissions, name,
    email, phone, and phone_number when phone is absent) is one or is
    absent, and otherwise panics with the context untouched, so that no
    partly filled authentication is ever stored.  An absent claim leaves
    its field empty, [phone] goes before [phone_number], and the tenant
    comes from the issuer or the default, never from the request. *)
Theorem SuccessHandler_map_claims (env : Collaborators) (config : RouterConfig)
    (c : Context) (m : gmap string any) :
  store c !! AuthKey env = Some (TokenValue (mkToken (MapClaims m))) →
  SuccessHandler env config c =
    if consultedClaimsAreStrings m
    then (Returns tt, storing c (AuthKey env) (AuthValue (authenticationOf env config m)))
    else (Panics assertion_failed, c).
Proof.
  intros Hstore.
  unfold SuccessHandler, c_Get, mbind at 1, M_bind at 1. rewrite Hstore.
  cbn [token_Claims GetSubject GetIssuer].
  unfold consultedClaimsAreStrings, optionalClaimsAreStrings, stringOrAbsent,
    authenticationOf.
  unfold mbind, M_bind. rewrite claims_copied.
  rewrite claim_run.
  destruct (m !! "roles") as [[]|]; cbn [andb]; try reflexivity;
    (rewrite claim_run;
     destruct (m !! "role") as [[]|]; cbn [andb]; try reflexivity;
       (rewrite claim_run;
        destruct (m !! "permissions") as [[]|]; cbn [andb]; try reflexivity;
          (rewrite claim_run;
           destruct (m !! "name") as [[]|] eqn:Hname; cbn [andb]; try reflexivity;
             (rewrite claim_run;
              destruct (m !! "email") as [[]|] eqn:Hemail; cbn [andb]; try reflexivity;
                (destruct (m !! "phone") as [[]|]; cbn [andb]; try reflexivity;
                   [unfold parseString; rewrite Hname, Hemail; reflexivity|];
                 rewrite claim_run;
                 destruct (m !! "phone_number") as [[]|] eqn:Hphone; cbn [andb];
                   try reflexivity;
                   unfold parseString; rewrite Hname, Hemail, Hphone; reflexivity))))).
Qed.

Lemma storing_storing (c : Context) (key : string) (v w : stored) :
  storing (storing c key v) key w = storing c key w.
Proof. unfold storing. simpl. by rewrite insert_insert_eq. Qed.

Lemma echojwt_accepts (env : Collaborators) (config : RouterConfig)
    (route : M (option error)) (c : Context) (key : string) (token : jwt_Token) :
  TokenProvider config = Some key →
  strings_HasPrefix (Header_Get (Header (request c)) "Authorization") "Bearer " = true →
  jwt_Parse env key (request c) = inr token →
  middlewares env config route c =
    echo_Recover env (SuccessHandler env config;; route)
      (storing c (AuthKey env) (TokenValue token)).
Proof.
  intros Hkey Hscheme Hparse.
  unfold middlewares. rewrite tenantMiddleware_run, Hkey.
  unfold echo_Recover, recovering, echojwt_WithConfig.
  rewrite (bind_returns _ _ _ _ _ (Skipper_run _)).
  change (request (storing c _ _)) with (request c). rewrite Hscheme. cbn [negb].
  unfold c_Request, c_Set, mbind at 1, M_bind at 1.
  change (request (storing c _ _)) with (request c). rewrite Hparse.
  unfold mbind at 1, M_bind at 1.
  change (mkContext _ (<[AuthKey env := TokenValue token]> _) _ _)
    with (storing (storing c (AuthKey env) (AuthValue (anonymousOf env (request c))))
            (AuthKey env) (TokenValue token)).
  by rewrite storing_storing.
Qed.

(** X14: a request with a bearer token the verifier accepts, with map
    claims whose consulted claims are strings, reaches the route with
    the authentication of the claims stored in place of the
    unauthenticated one: authenticated, the user being the subject, and
    the tenant being the issuer under multi-tenancy or the default
    tenant, whatever the [X-TenantId] header of the request says. *)
Theorem verified_token_authenticates (env : Collaborators) (config : RouterConfig)
    (route : M (option error)) (c : Context) (key : string) (m : gmap string any) :
  TokenProvider config = Some key →
  strings_HasPrefix (Header_Get (Header (request c)) "Authorization") "Bearer " = true →
  jwt_Parse env key (request c) = inr (mkToken (MapClaims m)) →
  consultedClaimsAreStrings m = true →
  middlewares env config route c =
    echo_Recover env route
      (storing c (AuthKey env) (AuthValue (authenticationOf env config m))) ∧
  Authenticated (authenticationOf env config m) = true ∧
  UserId (authenticationOf env config m) = parseString m "sub" ∧
  TenantId (authenticationOf env config m) =
    (if MultiTenant config && negb (bool_decide (parseString m "iss" = ""))
     then parseString m "iss" else DefaultTenantId env).
Proof.
  intros Hkey Hscheme Hparse Hclaims.
  split; [|done].
  rewrite (echojwt_accepts env config route c key _ Hkey Hscheme Hparse).
  unfold echo_Recover, recovering.
  assert (Hsuccess := SuccessHandler_run env config
                        (storing c (AuthKey env) (TokenValue (mkToken (MapClaims m)))) m).
  rewrite Hclaims, storing_storing in Hsuccess.
  rewrite (bind_returns _ _ _ _ _ (Hsuccess (lookup_insert_eq _ _ _))). reflexivity.
Qed.


(** X16: end to end, a handler of one parameter behind the middlewares
    is invoked with the request context of the authentication the
    middlewares resolved: for a request that is not a bearer request the
    unauthenticated one, whose tenant is the [X-TenantId] header or the
    default tenant.  A payload it returns with a nil error is answered
    with status 200, and the transaction is committed. *)
Theorem anonymous_request_served (env : Collaborators) (config : RouterConfig)
    (Call : Ctx → option any → outcome (list rvalue)) (c : Context) (r0 : rvalue) :
  strings_HasPrefix (Header_Get (Header (request c)) "Authorization") "Bearer " = false →
  Call (micro_NewAuthCtx (anonymousOf env (request c))) None = Returns [r0; NilValue] →
  NewEchoAdapter env config (echoRouterAdapter_request env (Func [micro_Ctx_type] Call)) c =
    (Returns tt,
     after (storing c (AuthKey env) (AuthValue (anonymousOf env (request c))))
       (dispatched (micro_NewAuthCtx (anonymousOf env (request c))) None TxCommit)
       [mkResponse StatusOK (Interface r0)]).
Proof.
  intros Hscheme Hcall.
  destruct (payload_served env [micro_Ctx_type] Call
              (storing c (AuthKey env) (AuthValue (anonymousOf env (request c))))
              (micro_NewAuthCtx (anonymousOf env (request c))) None r0) as [Hr _].
  { unfold routeContext, storing. simpl. by rewrite lookup_insert_eq. }
  { reflexivity. }
  { exact Hcall. }
  assert (Hrun : middlewares env config
                   (echoRouterAdapter_request env (Func [micro_Ctx_type] Call)) c =
    (Returns None,
     after (storing c (AuthKey env) (AuthValue (anonymousOf env (request c))))
       (dispatched (micro_NewAuthCtx (anonymousOf env (request c))) None TxCommit)
       [mkResponse StatusOK (Interface r0)])).
  { rewrite (middlewares_not_bearer env config _ c Hscheme).
    unfold echo_Recover, recovering. by rewrite Hr. }
  unfold NewEchoAdapter, echo_ServeHTTP. by rewrite (bind_returns _ _ _ _ _ Hrun).
Qed.

(** ** Filters *)

Lemma mapHttpResponse_mapped (t : taxonomy) (kind message : string) (details : any)
    (c : Context) :
  mapHttpResponse (taxonomyError t kind message details) c =
    (Returns None,
     after c [LogError (Err (taxonomyError t kind message details))]
       [mkResponse (documentedStatus t) (micro_ErrorResponse kind message details)]).
Proof. destruct t; reflexivity. Qed.

Lemma filterMiddleware_run (env : Collaborators) (filter : Filter) (next : M (option error))
    (c : Context) (ctx : Ctx) :
  routeContext env c = Some ctx →
  filterMiddleware env filter next c =
    match filter ctx with
    | Returns None => next (after c [CtxCreated ctx] [])
    | Returns (Some e) => mapHttpResponse e (after c [CtxCreated ctx] [])
    | Panics v => (Panics v, after c [CtxCreated ctx] [])
    end.
Proof.
  intros Hctx. unfold filterMiddleware.
  rewrite (bind_returns _ _ _ _ _ (createRouteContext_spec env c ctx Hctx)).
  unfold mbind, M_bind. by destruct (filter ctx) as [[e|]|v].
Qed.

Lemma filters_all_pass (env : Collaborators) (filters : list Filter) (next : M (option error))
    (c : Context) (ctx : Ctx) :
  routeContext env c = Some ctx →
  Forall (λ filter : Filter, filter ctx = Returns None) filters →
  echo_applyMiddleware next (map (filterMiddleware env) filters) c =
    next (after c (replicate (length filters) (CtxCreated ctx)) []).
Proof.
  intros Hctx Hpass. revert c Hctx.
  induction Hpass as [|filter filters Hfilter Hpass IH]; intros c Hctx.
  - simpl. by rewrite after_nil.
  - cbn [map echo_applyMiddleware foldr].
    rewrite (filterMiddleware_run env filter _ c ctx Hctx), Hfilter.
    fold (echo_applyMiddleware next (map (filterMiddleware env) filters)).
    rewrite IH by done. by rewrite after_after.
Qed.

Lemma filters_stop (env : Collaborators) (pre post : list Filter) (filter : Filter)
    (next : M (option error)) (c : Context) (ctx : Ctx) :
  routeContext env c = Some ctx →
  Forall (λ filter : Filter, filter ctx = Returns None) pre →
  echo_applyMiddleware next (map (filterMiddleware env) (pre ++ filter :: post)) c =
    match filter ctx with
    | Returns None =>
        echo_applyMiddleware next (map (filterMiddleware env) post)
          (after c (replicate (S (length pre)) (CtxCreated ctx)) [])
    | Returns (Some e) =>
        mapHttpResponse e (after c (replicate (S (length pre)) (CtxCreated ctx)) [])
    | Panics v => (Panics v, after c (replicate (S (length pre)) (CtxCreated ctx)) [])
    end.
Proof.
  intros Hctx Hpass.
  unfold echo_applyMiddleware. rewrite map_app, foldr_app.
  fold (echo_applyMiddleware
          (foldr (λ m h, m h) next (map (filterMiddleware env) (filter :: post)))
          (map (filterMiddleware env) pre)).
  rewrite (filters_all_pass env pre _ c ctx Hctx Hpass).
  cbn [map foldr].
  rewrite (filterMiddleware_run env filter _ _ ctx) by done.
  rewrite replicate_S_end.
  destruct (filter ctx) as [[e|]|v]; by rewrite after_after.
Qed.

Lemma createMiddlewares_PerLoop (env : Collaborators) (filters : list Filter) (g : Filter) :
  last filters = Some g →
  createMiddlewares env PerLoop filters =
    createMiddlewares env PerIteration (replicate (length filters) g).
Proof.
  intros Hlast. unfold createMiddlewares. rewrite Hlast. cbn [default].
  clear Hlast. induction filters as [|x l IH]; [done|].
  cbn [map length replicate]. by rewrite IH.
Qed.

Lemma createMiddlewares_PerIteration (env : Collaborators) (filters : list Filter) :
  createMiddlewares env PerIteration filters = map (filterMiddleware env) filters.
Proof. reflexivity. Qed.

(** X17: when every filter of a route lets the request pass, the route
    is the function of its handler, run after the request context has
    been built once for each filter; this holds under either capture of
    the loop variable. *)
Theorem filters_pass (env : Collaborators) (semantics : loopvar) (handler : Handler)
    (filters : list Filter) (c : Context) (ctx : Ctx) :
  routeContext env c = Some ctx →
  Forall (λ filter : Filter, filter ctx = Returns None) filters →
  echoRouterAdapter_route env semantics handler filters c =
    echoRouterAdapter_request env handler
      (after c (replicate (length filters) (CtxCreated ctx)) []).
Proof.
  intros Hctx Hpass. unfold echoRouterAdapter_route. destruct semantics.
  - rewrite createMiddlewares_PerIteration. by apply filters_all_pass.
  - destruct (last filters) as [g|] eqn:Hlast.
    + rewrite (createMiddlewares_PerLoop env filters g Hlast), createMiddlewares_PerIteration.
      rewrite (filters_all_pass env _ _ c ctx Hctx).
      * by rewrite length_replicate.
      * apply Forall_replicate. apply last_Some_elem_of in Hlast.
        by apply (proj1 (Forall_forall _ _) Hpass).
    + apply last_None in Hlast. subst filters. simpl. by rewrite after_nil.
Qed.

(** X18: with the filter of each iteration captured, the first filter
    that returns an error ends the request: the error goes through the
    error mapper (an error of the taxonomy is answered with its
    documented status), and neither the later filters nor the handler
    are consulted, nor is a transaction begun. *)
Theorem filter_rejects (env : Collaborators) (handler : Handler)
    (pre post : list Filter) (filter : Filter) (c : Context) (ctx : Ctx) (e : error) :
  routeContext env c = Some ctx →
  Forall (λ filter : Filter, filter ctx = Returns None) pre →
  filter ctx = Returns (Some e) →
  echoRouterAdapter_route env PerIteration handler (pre ++ filter :: post) c =
    mapHttpResponse e (after c (replicate (S (length pre)) (CtxCreated ctx)) []) ∧
  (∀ t kind message details, e = taxonomyError t kind message details →
     echoRouterAdapter_route env PerIteration handler (pre ++ filter :: post) c =
       (Returns None,
        after c (replicate (S (length pre)) (CtxCreated ctx) ++ [LogError (Err e)])%list
          [mkResponse (documentedStatus t) (micro_ErrorResponse kind message details)])).
Proof.
  intros Hctx Hpass Hfilter.
  assert (Hrun : echoRouterAdapter_route env PerIteration handler (pre ++ filter :: post) c =
            mapHttpResponse e (after c (replicate (S (length pre)) (CtxCreated ctx)) [])).
  { unfold echoRouterAdapter_route. rewrite createMiddlewares_PerIteration.
    by rewrite (filters_stop env pre post filter _ c ctx Hctx Hpass), Hfilter. }
  split; [exact Hrun|].
  intros t kind message details ->. rewrite Hrun, mapHttpResponse_mapped.
  by rewrite after_after.
Qed.


(** X20: a panic of a filter is outside the deferred recover of the
    route: it leaves the route as a panic even when its value is an
    error of the taxonomy, which the error mapper would have answered
    had the handler panicked with it; the handler is not invoked. *)
Theorem filter_panic_not_recovered (env : Collaborators) (handler : Handler)
    (pre post : list Filter) (filter : Filter) (c : Context) (ctx : Ctx) (v : any) :
  routeContext env c = Some ctx →
  Forall (λ filter : Filter, filter ctx = Returns None) pre →
  filter ctx = Panics v →
  echoRouterAdapter_route env PerIteration handler (pre ++ filter :: post) c =
    (Panics v, after c (replicate (S (length pre)) (CtxCreated ctx)) []).
Proof.
  intros Hctx Hpass Hfilter.
  unfold echoRouterAdapter_route. rewrite createMiddlewares_PerIteration.
  by rewrite (filters_stop env pre post filter _ c ctx Hctx Hpass), Hfilter.
Qed.

(** When the filters of a group pass, the route of the group goes on
    with its own filters. *)
Lemma group_filters_pass (env : Collaborators) (handler : Handler)
    (groupFilters filters : list Filter) (c : Context) (ctx : Ctx) :
  routeContext env c = Some ctx →
  Forall (λ filter : Filter, filter ctx = Returns None) groupFilters →
  echoGroupRoute_route env PerIteration groupFilters handler filters c =
    echo_applyMiddleware (echoGroupRoute_request env handler)
      (createMiddlewares env PerIteration filters)
      (after c (replicate (length groupFilters) (CtxCreated ctx)) []).
Proof.
  intros Hctx Hpass. unfold echoGroupRoute_route, echo_applyMiddleware.
  rewrite foldr_app, !createMiddlewares_PerIteration.
  apply (filters_all_pass env groupFilters
           (foldr (λ m h, m h) (echoGroupRoute_request env handler)
              (map (filterMiddleware env) filters)) c ctx Hctx Hpass).
Qed.

(** X21: on a route of a group the filters of the group come before the
    filters of the route: with the filter of each iteration captured,
    when a filter of the group returns an error, the error is mapped and
    neither the filters of the route nor the handler are consulted,
    whatever they are. *)
Theorem group_filter_rejects (env : Collaborators) (handler : Handler)
    (pre post filters : list Filter) (filter : Filter) (c : Context) (ctx : Ctx)
    (e : error) :
  routeContext env c = Some ctx →
  Forall (λ filter : Filter, filter ctx = Returns None) pre →
  filter ctx = Returns (Some e) →
  echoGroupRoute_route env PerIteration (pre ++ filter :: post) handler filters c =
    mapHttpResponse e (after c (replicate (S (length pre)) (CtxCreated ctx)) []).
Proof.
  intros Hctx Hpass Hfilter. unfold echoGroupRoute_route, echo_applyMiddleware.
  rewrite foldr_app, !createMiddlewares_PerIteration.
  pose proof (filters_stop env pre post filter
                (foldr (λ m h, m h) (echoGroupRoute_request env handler)
                   (map (filterMiddleware env) filters)) c ctx Hctx Hpass) as Hstop.
  unfold echo_applyMiddleware in Hstop. by rewrite Hstop, Hfilter.
Qed.

(** ** One response for every exchange *)










(** ** The further properties on sample exchanges *)

Lemma binding_failure_rejected_witness :
  echo_ServeHTTP brokenBinderEnv (echoRouterAdapter_request brokenBinderEnv echoingHandler)
      (incoming orderRequest) =
    (Returns tt,
     after (incoming orderRequest)
       (entering defaultCtx ++
        [LogError (Err (HTTPError 400
           (schema_ErrorResponse "input.bindind" "invalid_request_payload"
              (Str "unexpected EOF"))));
         TxRollback])%list
       [mkResponse 400
          (schema_ErrorResponse "input.bindind" "invalid_request_payload"
             (Str "unexpected EOF"))]).
Proof.
  exact (proj1 (proj2 (proj2
    (binding_failure_rejected brokenBinderEnv (named_type "OrderInput")
       (λ _ input, Returns [NonNil (default Nil input); NilValue])
       (incoming orderRequest) defaultCtx (ErrorString "unexpected EOF")
       eq_refl eq_refl (or_introl eq_refl))))).
Defined.

(** [func(ctx micro.Ctx) error] returning an error: status 200. *)
Lemma single_result_served_witness :
  echoRouterAdapter_request sampleEnv failingHandler (incoming anonymousRequest) =
    (Returns None,
     after (incoming anonymousRequest) (dispatched defaultCtx None TxCommit)
       [mkResponse 200 (Err rejection)]).
Proof.
  exact (proj1
    (single_result_served sampleEnv [micro_Ctx_type] (λ _ _, Returns [NonNil (Err rejection)])
       (incoming anonymousRequest) defaultCtx None (NonNil (Err rejection))
       eq_refl eq_refl eq_refl)).
Defined.

Lemma result_count_rejected_witness :
  echoRouterAdapter_request sampleEnv silentHandler (incoming anonymousRequest) =
    (Returns (Some (ErrorString "invalid handler return type")),
     after (incoming anonymousRequest) (dispatched defaultCtx None TxRollback) []).
Proof.
  exact (proj1
    (result_count_rejected sampleEnv [micro_Ctx_type] (λ _ _, Returns [])
       (incoming anonymousRequest) defaultCtx None [] eq_refl eq_refl eq_refl eq_refl
       (or_introl eq_refl))).
Defined.

Lemma second_result_not_an_error_witness :
  ∃ msg : string,
    handleRequest sampleEnv countingHandler (incoming anonymousRequest) =
      (Panics (Err (RuntimeError msg)),
       after (incoming anonymousRequest) (dispatched defaultCtx None TxRollback) []) ∧
    echoRouterAdapter_request sampleEnv countingHandler (incoming anonymousRequest) =
      (Returns (Some (RuntimeError msg)),
       after (incoming anonymousRequest)
         (dispatched defaultCtx None TxRollback ++
          [LogError (Err (RuntimeError msg))])%list []) ∧
    echoGroupRoute_request sampleEnv countingHandler (incoming anonymousRequest) =
      (Returns (Some (RuntimeError msg)),
       after (incoming anonymousRequest)
         (dispatched defaultCtx None TxRollback ++
          [LogError (Err (RuntimeError msg)); LogError (Err (RuntimeError msg))])%list []).
Proof.
  apply (second_result_not_an_error sampleEnv [micro_Ctx_type]
           (λ _ _, Returns [NilValue; NotNilable (Num 1)])
           (incoming anonymousRequest) defaultCtx None NilValue (NotNilable (Num 1)));
    try reflexivity.
  left. by exists (Num 1).
Defined.

Lemma routes_return_witness :
  (∃ r c', echoRouterAdapter_request sampleEnv rejectingHandler (incoming anonymousRequest) =
             (Returns r, c')) ∧
  (∃ r c', echoGroupRoute_request sampleEnv rejectingHandler (incoming anonymousRequest) =
             (Returns r, c')).
Proof.
  apply (routes_return sampleEnv rejectingHandler (incoming anonymousRequest)).
  intros In Call ctx input v [= <- <-] Hcall. discriminate Hcall.
Defined.

Lemma error_answered_once_witness :
  ∃ code body,
    echo_ServeHTTP sampleEnv (mapHttpResponse outage) (incoming anonymousRequest) =
      (Returns tt,
       after (incoming anonymousRequest) [LogError (Err outage)] [mkResponse code body]) ∧
    (∀ t kind message details, outage = taxonomyError t kind message details →
       code = documentedStatus t ∧ body = micro_ErrorResponse kind message details) ∧
    (∀ code' message, outage = HTTPError code' message → code = code' ∧ body = message) ∧
    (isTaxonomyError outage = false → isHTTPError outage = false →
       code = StatusInternalServerError).
Proof.
  apply (error_answered_once sampleEnv outage (incoming anonymousRequest)). reflexivity.
Defined.

(** Basic credentials with a token provider configured: the route runs
    unauthenticated, in the default tenant. *)
Lemma not_bearer_is_anonymous_witness :
  middlewares sampleEnv sampleConfig (mret None) (incoming basicRequest) =
    echo_Recover sampleEnv (mret None)
      (storing (incoming basicRequest) "auth"
         (AuthValue (mkAuthentication false "default" "" [] [] "" "" "" None None))).
Proof.
  exact (not_bearer_is_anonymous sampleEnv sampleConfig (mret None) (incoming basicRequest)
           eq_refl).
Defined.

Lemma refused_token_unauthorized_witness :
  NewEchoAdapter sampleEnv sampleConfig
      (echoRouterAdapter_request sampleEnv tenantHandler) (incoming forgedRequest) =
    (Returns tt,
     after (storing (incoming forgedRequest) "auth"
              (AuthValue (mkAuthentication false "default" "" [] [] "" "" "" None None)))
       [] [mkResponse 401 (Str "invalid or expired jwt")]).
Proof.
  exact (proj2
    (refused_token_unauthorized sampleEnv sampleConfig
       (echoRouterAdapter_request sampleEnv tenantHandler) (incoming forgedRequest)
       "secret" (ErrorString "invalid or expired jwt") eq_refl eq_refl eq_refl)).
Defined.

Lemma SuccessHandler_map_claims_witness :
  SuccessHandler sampleEnv sampleConfig (verified sampleEnv sampleClaims) =
    (Returns tt,
     storing (verified sampleEnv sampleClaims) "auth"
       (AuthValue (authenticationOf sampleEnv sampleConfig sampleClaims))).
Proof.
  exact (SuccessHandler_map_claims sampleEnv sampleConfig (verified sampleEnv sampleClaims)
           sampleClaims eq_refl).
Defined.

(** The tenant of a verified token is its issuer, not the [X-TenantId]
    header of the request. *)
Lemma verified_token_authenticates_witness :
  middlewares sampleEnv sampleConfig (mret None) (incoming bearerRequest) =
    echo_Recover sampleEnv (mret None)
      (storing (incoming bearerRequest) "auth"
         (AuthValue (authenticationOf sampleEnv sampleConfig sampleClaims))) ∧
  Authenticated (authenticationOf sampleEnv sampleConfig sampleClaims) = true ∧
  UserId (authenticationOf sampleEnv sampleConfig sampleClaims) = "u1" ∧
  TenantId (authenticationOf sampleEnv sampleConfig sampleClaims) = "acme.org".
Proof.
  exact (verified_token_authenticates sampleEnv sampleConfig (mret None)
           (incoming bearerRequest) "secret" sampleClaims eq_refl eq_refl eq_refl eq_refl).
Defined.


(** The handler sees the tenant of the [X-TenantId] header. *)
Lemma anonymous_request_served_witness :
  NewEchoAdapter sampleEnv sampleConfig
      (echoRouterAdapter_request sampleEnv tenantHandler) (incoming anonymousRequest) =
    (Returns tt,
     after (storing (incoming anonymousRequest) "auth"
              (AuthValue (anonymousOf sampleEnv anonymousRequest)))
       (dispatched (micro_NewAuthCtx (anonymousOf sampleEnv anonymousRequest)) None TxCommit)
       [mkResponse 200 (Str "acme")]).
Proof.
  exact (anonymous_request_served sampleEnv sampleConfig
           (λ ctx _, Returns [NonNil (Str (ctx_TenantId ctx)); NilValue])
           (incoming anonymousRequest) (NonNil (Str "acme")) eq_refl eq_refl).
Defined.

Lemma filters_pass_witness :
  echoRouterAdapter_route sampleEnv PerLoop tenantHandler [passingFilter; passingFilter]
      (incoming anonymousRequest) =
    echoRouterAdapter_request sampleEnv tenantHandler
      (after (incoming anonymousRequest) [CtxCreated defaultCtx; CtxCreated defaultCtx] []).
Proof.
  apply (filters_pass sampleEnv PerLoop tenantHandler [passingFilter; passingFilter]
           (incoming anonymousRequest) defaultCtx); [reflexivity|].
  repeat constructor.
Defined.

(** A filter that refuses with a forbidden error: status 403, and the
    handler is not invoked. *)
Lemma filter_rejects_witness :
  echoRouterAdapter_route sampleEnv PerIteration tenantHandler
      [passingFilter; refusingFilter; passingFilter] (incoming anonymousRequest) =
    (Returns None,
     after (incoming anonymousRequest)
       [CtxCreated defaultCtx; CtxCreated defaultCtx;
        LogError (Err (ForbiddenError "tenant.forbidden" "forbidden" Nil))]
       [mkResponse 403 (micro_ErrorResponse "tenant.forbidden" "forbidden" Nil)]).
Proof.
  apply (proj2
    (filter_rejects sampleEnv tenantHandler [passingFilter] [passingFilter] refusingFilter
       (incoming anonymousRequest) defaultCtx
       (ForbiddenError "tenant.forbidden" "forbidden" Nil)
       eq_refl (Forall_cons_2 _ _ _ eq_refl (Forall_nil_2 _)) eq_refl)
    Forbidden "tenant.forbidden" "forbidden" Nil eq_refl).
Defined.


Lemma filter_panic_not_recovered_witness :
  echoRouterAdapter_route sampleEnv PerIteration tenantHandler [panickingFilter]
      (incoming anonymousRequest) =
    (Panics (Err (ForbiddenError "tenant.forbidden" "forbidden" Nil)),
     after (incoming anonymousRequest) [CtxCreated defaultCtx] []).
Proof.
  exact (filter_panic_not_recovered sampleEnv tenantHandler [] [] panickingFilter
           (incoming anonymousRequest) defaultCtx _ eq_refl (Forall_nil_2 _) eq_refl).
Defined.

Lemma group_filter_rejects_witness :
  echoGroupRoute_route sampleEnv PerIteration [refusingFilter] tenantHandler [panickingFilter]
      (incoming anonymousRequest) =
    mapHttpResponse (ForbiddenError "tenant.forbidden" "forbidden" Nil)
      (after (incoming anonymousRequest) [CtxCreated defaultCtx] []).
Proof.
  exact (group_filter_rejects sampleEnv tenantHandler [] [] [panickingFilter] refusingFilter
           (incoming anonymousRequest) defaultCtx _ eq_refl (Forall_nil_2 _) eq_refl).
Defined.

